(** * dbv: the terminal dataset viewer (src/dbv/tui.py)

    A shallow embedding of the interactive browsing engine: the text-capture
    editor ([CaptureKeyboardInput]), the filter compiler ([compile_filter] and
    the nested [filter] of [TableView.__rich_console__]), the windowed table
    renderer with its column-fit step, and the keyboard dispatcher
    ([Interface.keyboard_handler]).

    Python integers are unbounded and are modelled by [Z]; Python strings are
    modelled by [string], one [ascii] per character (code points below 256).
    Exceptions are modelled by the [Raise] constructor of [Py.result], and a
    lazy frame whose rows cannot be computed by its [Deferred] constructor. *)

From Stdlib Require Import ZArith Lia Ascii DecimalString.
From stdpp Require Import base list strings gmap.

(* ===================================================================== *)
(** ** Python primitives used by the program *)
(* ===================================================================== *)

Module Py.

(** The exception classes that occur in the modelled code paths. *)
Inductive exn : Type :=
| AttributeError | KeyError | TypeError | ValueError
| NameError | SyntaxError | IndexingError.

(** The outcome of a computation: a value, an exception raised on the spot,
    or a lazy value that cannot be computed.  The program's frames are dask
    frames, which are built lazily: indexing a frame by a column succeeds at
    once, whatever the column holds, and the exception is raised when the
    rows of the result are read.  [Deferred e] is such a result: no [try]
    around the place that builds it sees [e]; whoever reads the rows does. *)
Inductive result (A : Type) : Type :=
| Ok (a : A)
| Raise (e : exn)
| Deferred (e : exn).
Arguments Ok {A} a.
Arguments Raise {A} e.
Arguments Deferred {A} e.

(** What is built from a lazy value that cannot be computed cannot be
    computed either. *)
Definition bind {A B} (r : result A) (k : A -> result B) : result B :=
  match r with
  | Ok a => k a
  | Raise e => Raise e
  | Deferred e => Deferred e
  end.

Definition is_ok {A} (r : result A) : bool :=
  match r with Ok _ => true | Raise _ | Deferred _ => false end.

(** [len(l)] *)
Definition len {A} (l : list A) : Z := Z.of_nat (length l).

Definition LF : ascii := "010"%char.
Definition CR : ascii := "013"%char.

(** [c.isspace()] for the code points below 256. *)
Definition isspace (a : ascii) : bool :=
  let n := N_of_ascii a in
  ((9 <=? n) && (n <=? 13) || (28 <=? n) && (n <=? 32)
   || (n =? 133) || (n =? 160))%N.

(** [ch in chars] for a character and a string of characters. *)
Fixpoint char_in (a : ascii) (chars : string) : bool :=
  match chars with
  | EmptyString => false
  | String c chars' => Ascii.eqb a c || char_in a chars'
  end.

Fixpoint lstrip_by (p : ascii -> bool) (s : string) : string :=
  match s with
  | EmptyString => EmptyString
  | String a s' => if p a then lstrip_by p s' else s
  end.

Fixpoint rstrip_by (p : ascii -> bool) (s : string) : string :=
  match s with
  | EmptyString => EmptyString
  | String a s' =>
      match rstrip_by p s' with
      | EmptyString => if p a then EmptyString else String a EmptyString
      | r => String a r
      end
  end.

(** [s.strip()] *)
Definition strip (s : string) : string := lstrip_by isspace (rstrip_by isspace s).

(** [s.rstrip(chars)] *)
Definition rstrip (s chars : string) : string :=
  rstrip_by (fun a => char_in a chars) s.

(** [s.endswith(suffix)] *)
Fixpoint endswith (s suffix : string) : bool :=
  String.eqb s suffix
  || match s with
     | EmptyString => false
     | String _ s' => endswith s' suffix
     end.

(** [pat in s], the case-sensitive substring test that
    [Series.str.contains(pat, regex=False)] applies to every element. *)
Fixpoint contains (s pat : string) : bool :=
  String.prefix pat s
  || match s with
     | EmptyString => false
     | String _ s' => contains s' pat
     end.

(** [l[start:]], with Python's treatment of a negative start. *)
Definition slice_from {A} (l : list A) (start : Z) : list A :=
  let s := if (start <? 0)%Z then Z.max 0 (start + len l) else start in
  drop (Z.to_nat s) l.

(** [list(itertools.islice(it, start, stop))]: negative bounds are refused
    with ValueError. *)
Definition islice {A} (it : list A) (start stop : Z) : result (list A) :=
  if ((start <? 0) || (stop <? 0))%Z then Raise ValueError
  else Ok (take (Z.to_nat (stop - start)) (drop (Z.to_nat start) it)).

(** [functools.reduce(f, l)] without an initial value: TypeError on an empty
    sequence. *)
Definition reduce {A} (f : A -> A -> A) (l : list A) : result A :=
  match l with
  | [] => Raise TypeError
  | x :: xs => Ok (fold_left f xs x)
  end.

(** [zip] applied to the unpacked rows: the transposition, cut at the
    shortest row; no rows give no columns. *)
Fixpoint zip_star {A} (rows : list (list A)) : list (list A) :=
  match rows with
  | [] => []
  | r :: rest =>
      match rest with
      | [] => map (fun x => [x]) r
      | _ :: _ => zip_with cons r (zip_star rest)
      end
  end.

(** [np.add.accumulate(l)], the running sums. *)
Fixpoint accumulate_from (acc : Z) (l : list Z) : list Z :=
  match l with
  | [] => []
  | x :: l' => (acc + x)%Z :: accumulate_from (acc + x)%Z l'
  end.
Definition accumulate (l : list Z) : list Z := accumulate_from 0%Z l.

(** [np.where(a > bound)[0]], the positions of the elements above the
    bound, in increasing order. *)
Fixpoint where_gt_from (i : nat) (a : list Z) (bound : Z) : list nat :=
  match a with
  | [] => []
  | x :: a' =>
      if (bound <? x)%Z then i :: where_gt_from (S i) a' bound
      else where_gt_from (S i) a' bound
  end.
Definition where_gt (a : list Z) (bound : Z) : list nat := where_gt_from 0 a bound.

End Py.

(** The error monad of [Py.result], with stdpp's [x ← m; k] notation. *)
#[global] Instance result_ret : MRet Py.result := @Py.Ok.
#[global] Instance result_bind : MBind Py.result :=
  fun A B k r => Py.bind r k.
#[global] Instance result_fmap : FMap Py.result :=
  fun A B f r => Py.bind r (fun a => Py.Ok (f a)).

(** Runs the monadic steps whose outcome is known. *)
Ltac py_step := cbn [mbind result_bind fmap result_fmap Py.bind].

(* ===================================================================== *)
(** ** The data source: a DataFrame, as far as the program uses it *)
(* ===================================================================== *)

(** The DataFrame library is an external collaborator.  The model keeps what
    the viewer relies on: an ordered list of column names, rows labelled by
    an index, attribute access, indexing by a key, boolean row selection,
    positional column slicing and string coercion of cells.  The frames of
    the program are dask frames ([dd.DataFrame]): what is built from a frame
    is built lazily, and an error in the rows is raised when they are
    read. *)

Module Frame.
Import Py.

Inductive cell : Type :=
| CStr (s : string)
| CInt (z : Z)
| CBool (b : bool)
| CNone.

#[global] Instance cell_eq_dec : EqDecision cell.
Proof. solve_decision. Defined.

(** [str(v)] *)
Definition str (v : cell) : string :=
  match v with
  | CStr s => s
  | CInt z => NilZero.string_of_int (Z.to_int z)
  | CBool true => "True"
  | CBool false => "False"
  | CNone => "None"
  end.

(** A row of the table: its index label and one cell per column. *)
Definition row : Type := Z * list cell.

Record DataFrame : Type := mkDataFrame {
  columns : list string;
  rows : list row;
}.

Record Series : Type := mkSeries {
  name : string;
  items : list (Z * cell);
}.

(** A frame is well formed when its column names are distinct and every
    row has one cell per column. *)
Definition wf (df : DataFrame) : Prop :=
  NoDup (columns df) ∧ Forall (fun r : row => length r.2 = length (columns df)) (rows df).

(** [len(df)], the row count. *)
Definition nrows (df : DataFrame) : Z := len (rows df).

(** The position of a column name in the column list. *)
Definition position (c : string) (cols : list string) : option nat :=
  fst <$> list_find (fun c' => c' = c) cols.

(** The cell of a row in column [j]. *)
Definition cell_at (j : nat) (r : row) : cell := default CNone (r.2 !! j).

(** The column at position [j]: the cell of every row, with its index
    label. *)
Definition column_at (j : nat) (df : DataFrame) : list (Z * cell) :=
  map (fun r : row => (r.1, cell_at j r)) (rows df).

(** The attributes that the DataFrame class defines itself: methods and
    properties such as [size], [index] or [count].  Attribute lookup finds
    them before it looks for a column, so a column with such a name is not
    reached by [getattr(df, name)].  The class belongs to the library: which
    names it defines is a parameter, and so is what the two operations that
    the viewer applies to the value of such an attribute give on it,
    [to_frame()] and [map(str).str.contains(pat, regex=False)] (a method or
    a number has neither: AttributeError). *)
Class DataFrameClass : Type := {
  is_attribute : string -> bool;
  attribute_to_frame : DataFrame -> string -> result DataFrame;
  attribute_contains : DataFrame -> string -> string -> result (list bool);
}.

(** What [getattr(df, c)] yields: a column of the frame, or the value of an
    attribute of the class. *)
Inductive attribute : Type :=
| AttrColumn (s : Series)
| AttrMember (name : string).

(** [getattr(df, c)]: the attribute [c] of the class when it defines one,
    else the column named [c]; AttributeError when there is neither. *)
Definition getattr `{DataFrameClass} (df : DataFrame) (c : string)
  : result attribute :=
  if is_attribute c then Ok (AttrMember c)
  else
    match position c (columns df) with
    | Some j => Ok (AttrColumn (mkSeries c (column_at j df)))
    | None => Raise AttributeError
    end.

(** [s.to_frame()] *)
Definition to_frame (s : Series) : DataFrame :=
  mkDataFrame [name s] (map (fun it : Z * cell => (it.1, [it.2])) (items s)).

(** [s.map(str).str.contains(pat, regex=False)], a boolean value per row. *)
Definition str_contains (s : Series) (pat : string) : list bool :=
  map (fun it : Z * cell => contains (str it.2) pat) (items s).

(** [a | b] on two boolean columns of the same frame. *)
Definition mask_or (a b : list bool) : list bool := zip_with orb a b.

(** Keep the elements whose mask entry is true. *)
Fixpoint compress {A} (l : list A) (mask : list bool) : list A :=
  match l, mask with
  | x :: l', b :: mask' => if b then x :: compress l' mask' else compress l' mask'
  | _, _ => []
  end.

(** [df[mask]] for a boolean mask: the rows where the mask holds, in their
    order.  The frame is built lazily: a mask that cannot be aligned with
    the rows (here: of another length) is refused with IndexingError when
    the rows are read. *)
Definition select_rows (df : DataFrame) (mask : list bool) : result DataFrame :=
  if decide (length mask = length (rows df))
  then Ok (mkDataFrame (columns df) (compress (rows df) mask))
  else Deferred IndexingError.

(** [pdf[labels]] on the computed rows, for a list of column labels:
    KeyError when a label is no column. *)
Definition select_columns (df : DataFrame) (labels : list string) : result DataFrame :=
  match mapM (fun c => position c (columns df)) labels with
  | Some js =>
      Ok (mkDataFrame labels
            (map (fun r : row => (r.1, map (fun j => cell_at j r) js))
                 (rows df)))
  | None => Raise KeyError
  end.

(** [df.iloc[:, start:]] *)
Definition iloc_columns_from (df : DataFrame) (start : Z) : DataFrame :=
  mkDataFrame (slice_from (columns df) start)
              (map (fun r : row => (r.1, slice_from r.2 start)) (rows df)).

(** [df.itertuples()]: one tuple per row, the index label first. *)
Definition itertuples (df : DataFrame) : list (list cell) :=
  map (fun r : row => CInt r.1 :: r.2) (rows df).

(** What evaluating a filter expression may yield. *)
Inductive value : Type :=
| VMask (mask : list bool)       (* a boolean value per row *)
| VSeries (s : Series)           (* a column of non-boolean values *)
| VScalar (c : cell).            (* a single Python value *)

(** What the compiled filter returns: a table, a single column, or the
    value of an attribute of the DataFrame class. *)
Inductive indexed : Type :=
| AFrame (df : DataFrame)
| ASeries (s : Series)
| AMember (name : string).

Definition label_of (c : cell) : option string :=
  match c with CStr s => Some s | _ => None end.

(** [df[key]].  A scalar key is a column label: it is looked up at once
    (KeyError when it is no column) and yields that column.  A column as
    key, of booleans or of other values, yields a lazy frame with the
    columns of [df]; nothing is raised when it is built.  When its rows are
    read, a boolean mask selects rows, and a column of other values is a
    list of column labels, of which the cells are selected: KeyError when
    they are no labels of columns. *)
Definition getitem (df : DataFrame) (key : value) : result indexed :=
  match key with
  | VMask mask => AFrame <$> select_rows df mask
  | VScalar c =>
      match label_of c with
      | Some l =>
          match position l (columns df) with
          | Some j => Ok (ASeries (mkSeries l (column_at j df)))
          | None => Raise KeyError
          end
      | None => Raise KeyError
      end
  | VSeries s =>
      match mapM (fun it : Z * cell => label_of it.2) (items s) with
      | Some labels =>
          match select_columns df labels with
          | Ok selected => Ok (AFrame (mkDataFrame (columns df) (rows selected)))
          | Raise e | Deferred e => Deferred e
          end
      | None => Deferred KeyError
      end
  end.

(** [isinstance(x, dd.DataFrame)] followed by [x.to_frame()] when it is
    not; [df] is the frame that [x] was taken from. *)
Definition as_frame `{DataFrameClass} (df : DataFrame) (x : indexed)
  : result DataFrame :=
  match x with
  | AFrame f => Ok f
  | ASeries s => Ok (to_frame s)
  | AMember name => attribute_to_frame df name
  end.

(** The mask of column [j] in the substring search. *)
Definition contains_mask (df : DataFrame) (text : string) (j : nat) : list bool :=
  map (fun r => contains (str (cell_at j r)) text) (rows df).

(** A row matches when one of its cells, as a string, contains the text. *)
Definition row_matches (text : string) (r : row) : bool :=
  existsb (fun c => contains (str c) text) r.2.

End Frame.

(* ===================================================================== *)
(** ** The editor: [CaptureKeyboardInput] *)
(* ===================================================================== *)

Module Editor.
Import Py.

Definition ESCAPE_KEY : string := String "027" "".
Definition CTRL_H : string := String "008" "".
Definition BACKSPACE : string := String "127" "".
Definition CTRL_K : string := String "011" "".
Definition NEWLINE : string := String LF "".
Definition CRLF : string := String CR (String LF "").

(** The data attributes of the dataclass. *)
Record CaptureState : Type := mkState {
  prompt : option string;
  value : string;
  editing : bool;
}.

(** The dataclass: its data attributes and its two callbacks.  A callback
    receives the editor and may assign its attributes (as [exit_on_return]
    does with [cap.value]), so it maps a [CaptureState] to a
    [CaptureState]. *)
Record CaptureKeyboardInput : Type := mkCapture {
  state : CaptureState;
  update : CaptureState -> string -> CaptureState * bool;
  finalize : CaptureState -> CaptureState;
}.

Definition set_value (st : CaptureState) (v : string) : CaptureState :=
  mkState (prompt st) v (editing st).
Definition set_editing (st : CaptureState) (b : bool) : CaptureState :=
  mkState (prompt st) (value st) b.
Definition set_state (cap : CaptureKeyboardInput) (st : CaptureState)
  : CaptureKeyboardInput :=
  mkCapture st (update cap) (finalize cap).

(** The default callbacks: [lambda cap, s: True] and [lambda cap: None]. *)
Definition default_update (st : CaptureState) (s : string) : CaptureState * bool :=
  (st, true).
Definition default_finalize (st : CaptureState) : CaptureState := st.

(** [s[:-1]] *)
Fixpoint drop_last (s : string) : string :=
  match s with
  | EmptyString => EmptyString
  | String a s' =>
      match s' with
      | EmptyString => EmptyString
      | String _ _ => String a (drop_last s')
      end
  end.

(** The buffer edit of [send_character], before the update callback. *)
Definition edit_buffer (st : CaptureState) (ch : string) : CaptureState :=
  if String.eqb ch BACKSPACE || String.eqb ch CTRL_H
  then set_value st (drop_last (value st))
  else if String.eqb ch CTRL_K
  then set_value st ""
  else set_value st (value st +:+ ch).

Definition send_character (cap : CaptureKeyboardInput) (ch : string)
  : CaptureKeyboardInput * bool :=
  let st := edit_buffer (state cap) ch in
  let '(st, keep) := update cap st (value st) in
  (set_state cap st, keep).

Definition exit_on_return (cap : CaptureState) (s : string) : CaptureState * bool :=
  if endswith s NEWLINE
  then (set_value cap (rstrip (value cap) CRLF), false)
  else (cap, true).

End Editor.

(* ===================================================================== *)
(** ** The filter compiler and the table view *)
(* ===================================================================== *)

Module Table.
Import Py Frame.

Record ConsoleOptions : Type := mkOptions {
  height : Z;
  max_width : Z;
}.

(** A column handed to the width measurement: its header and its cells. *)
Record Column : Type := mkColumn {
  header : string;
  _cells : list cell;
}.

Record TableView : Type := mkTableView {
  df : DataFrame;
  _last_page_size : Z;
  _startat : Z;
  _column_startat : Z;
  _filter : Editor.CaptureKeyboardInput;
}.

(** What a rendering yields: whether the filter line is shown, the header,
    the page and the row count of the footer. *)
Record Frame : Type := mkFrame {
  frame_filter : bool;
  frame_columns : list string;
  frame_rows : list (list cell);
  frame_total : Z;
}.

(** [TableView.__init__] *)
Definition init (d : DataFrame) : TableView :=
  mkTableView d 0 0 0
    (Editor.mkCapture (Editor.mkState (Some "filter: ") "" false)
       Editor.exit_on_return Editor.default_finalize).

Definition startat (tv : TableView) : Z := _startat tv.
Definition column_startat (tv : TableView) : Z := _column_startat tv.

(** The [startat] setter. *)
Definition set_startat (tv : TableView) (startat : Z) : TableView :=
  mkTableView (df tv) (_last_page_size tv)
    (Z.min (nrows (df tv) - 1) (Z.max 0 startat))
    (_column_startat tv) (_filter tv).

(** The [column_startat] setter. *)
Definition set_column_startat (tv : TableView) (column_startat : Z) : TableView :=
  mkTableView (df tv) (_last_page_size tv) (_startat tv)
    (Z.min (len (columns (df tv)) - 1) (Z.max 0 column_startat))
    (_filter tv).

Definition set_last_page_size (tv : TableView) (n : Z) : TableView :=
  mkTableView (df tv) n (_startat tv) (_column_startat tv) (_filter tv).

Definition set_filter (tv : TableView) (cap : Editor.CaptureKeyboardInput)
  : TableView :=
  mkTableView (df tv) (_last_page_size tv) (_startat tv) (_column_startat tv) cap.

Definition increment_page (tv : TableView) : TableView :=
  set_startat tv (startat tv + _last_page_size tv).

Definition decrement_page (tv : TableView) : TableView :=
  set_startat tv (startat tv - _last_page_size tv).

(** The [filter] property: the editor's value, or [None] when it is
    empty. *)
Definition filter_value (tv : TableView) : option string :=
  match Editor.value (Editor.state (_filter tv)) with
  | EmptyString => None
  | s => Some s
  end.

(** Whether the filter line is rendered: the editor holds a value or is
    being edited. *)
Definition filter_shown (tv : TableView) : bool :=
  let cap := Editor.state (_filter tv) in
  negb (String.eqb (Editor.value cap) "") || Editor.editing cap.

(** The rows left for the page: 6 for title, header and spacers, 1 for the
    footer, and 1 for the filter line when it is shown. *)
Definition body_height (options : ConsoleOptions) (tv : TableView) : Z :=
  let height := (height options - 7)%Z in
  if filter_shown tv then (height - 1)%Z else height.

Section ColumnFit.
(** [table._measure_column(console, options, column).maximum], at the
    console options of the rendering. *)
Variable measure_column : Column -> Z.

(** The cumulative widths that [fit_columns] computes. *)
Definition total_widths (column_names : list string) (paged : list (list cell))
  : list Z :=
  accumulate
    (map (fun w => (w + 1)%Z)
       (map measure_column (zip_with mkColumn column_names (zip_star paged)))).

(** The column-fit step: how many leading columns are rendered. *)
Definition fit_columns (width : Z) (column_names : list string)
    (paged : list (list cell)) : list string * list (list cell) :=
  let columns := zip_with mkColumn column_names (zip_star paged) in
  let column_widths := map measure_column columns in
  let max_column_widths := map (fun w => (w + 1)%Z) column_widths in
  let total_width := accumulate max_column_widths in
  match where_gt total_width width with
  | [] => (column_names, paged)
  | first :: _ =>
      let max_column := Nat.max first 1 in
      let max_column :=
        if decide (max_column < length columns) then
          let available_width :=
            (width - default 0 (total_width !! (max_column - 1)%nat))%Z in
          if ((30 <=? available_width) && (4 * Z.of_nat max_column <=? available_width))%Z
          then max_column + 1
          else max_column
        else max_column in
      (take max_column column_names, map (take max_column) paged)
  end.

End ColumnFit.

Section Rendering.
(** The DataFrame class of the library. *)
Context {frame_class : DataFrameClass}.
(** [eval(filter_string, None, locals())] with the columns and [df] in
    scope: the expression evaluator of the interpreter.  [Deferred e] is a
    lazy column that cannot be computed. *)
Variable py_eval : string -> DataFrame -> result value.
(** [table._measure_column(console, options, column).maximum]: the
    measurement receives the console options of the rendering. *)
Variable measure_column : ConsoleOptions -> Column -> Z.

(** [compile_filter(filter_string)(df)]; a [None] filter string has no
    [strip]. *)
Definition compile_filter (filter_string : option string) (df : DataFrame)
  : result indexed :=
  match filter_string with
  | None => Raise AttributeError
  | Some text =>
      if decide (strip text ∈ columns df)
      then
        a ← getattr df (strip text);
        Ok (match a with
            | AttrColumn s => ASeries s
            | AttrMember name => AMember name
            end)
      else evaluated ← py_eval text df; getitem df evaluated
  end.

(** The masks of the fallback, one per column:
    [getattr(df, col).map(str).str.contains(text, regex=False)]. *)
Fixpoint column_masks (df : DataFrame) (cols : list string) (text : string)
  : result (list (list bool)) :=
  match cols with
  | [] => Ok []
  | col :: cols' =>
      a ← getattr df col;
      mask ← match a with
             | AttrColumn s => Ok (str_contains s text)
             | AttrMember name => attribute_contains df name text
             end;
      rest ← column_masks df cols' text;
      Ok (mask :: rest)
  end.

(** The substring search of the [except] branch. *)
Definition substring_search (df : DataFrame) (text : string) : result DataFrame :=
  masks ← column_masks df (columns df) text;
  mask ← reduce mask_or masks;
  select_rows df mask.

(** The nested function [filter] of [__rich_console__].  The [except]
    branch is taken for what the [try] body raises; a lazy frame is
    returned as it is, whether its rows can be computed or not. *)
Definition filter_frame (tv : TableView) (df : DataFrame) : result DataFrame :=
  match (x ← compile_filter (filter_value tv) df; as_frame df x) with
  | Ok filtered => Ok filtered
  | Deferred e => Deferred e
  | Raise _ =>
      match filter_value tv with
      | Some text => substring_search df text
      | None => Ok df
      end
  end.

(** [TableView.__rich_console__]: the new state of the view (the page size
    is recorded before anything can fail) and the frame, or the exception
    that escapes.  The rows of the filtered frame are read after [islice]
    has checked its bounds; a lazy frame that cannot be computed raises its
    exception then, outside the [try] of the filter step. *)
Definition render (options : ConsoleOptions) (tv : TableView)
  : TableView * result Frame :=
  let height := body_height options tv in
  let width := (max_width options - 2)%Z in
  let show_filter := filter_shown tv in
  let tv := set_last_page_size tv height in
  (tv,
   match filter_frame tv (df tv) with
   | Ok filtered =>
       let filtered := iloc_columns_from filtered (column_startat tv) in
       paged ← islice (itertuples filtered) (startat tv) (startat tv + height);
       let column_names := " " :: columns filtered in
       let '(column_names, paged) :=
         fit_columns (measure_column options) width column_names paged in
       Ok (mkFrame show_filter column_names paged (nrows filtered))
   | Raise e => Raise e
   | Deferred e =>
       _ ← islice (@nil (list cell)) (startat tv) (startat tv + height);
       Raise e
   end).

End Rendering.

End Table.

(* ===================================================================== *)
(** ** The interface: modes, commands and the keyboard handler *)
(* ===================================================================== *)

Module Ui.
Import Py Frame.

Inductive Mode : Type := SUMMARY | TABLE | HELP.

#[global] Instance Mode_eq_dec : EqDecision Mode.
Proof. solve_decision. Defined.

(** [Interface.editing] is either [None] or a reference to the editor that
    captures the input.  The program has one editor object, the filter
    of the table view; the reference aliases it, so what is typed is what
    the table view reads as its filter at the next rendering. *)
Inductive editor_ref : Type := TableFilter.

(** Calls made by the handler, recorded for the statements about them: the
    [refresh] callback, the update callback of an editor (with the buffer
    it receives) and the finalize callback of an editor. *)
Inductive call : Type :=
| Refresh
| Update (buffer : string)
| Finalize.

#[global] Instance call_eq_dec : EqDecision call.
Proof. solve_decision. Defined.

Record Interface : Type := mkInterface {
  df : DataFrame;
  table : Table.TableView;
  mode : Mode;
  editing : option editor_ref;
  calls : list call;
}.

Record Command : Type := mkCommand {
  key : string;
  short_description : string;
  fn : Interface -> Interface * bool;
  help : string;
}.

(** [Interface.__init__] *)
Definition init (d : DataFrame) : Interface :=
  mkInterface d (Table.init d) TABLE None [].

Definition deref (ui : Interface) (r : editor_ref) : Editor.CaptureKeyboardInput :=
  match r with TableFilter => Table._filter (table ui) end.

Definition assign (ui : Interface) (r : editor_ref)
    (cap : Editor.CaptureKeyboardInput) : Interface :=
  match r with
  | TableFilter =>
      mkInterface (df ui) (Table.set_filter (table ui) cap) (mode ui) (editing ui) (calls ui)
  end.

Definition set_table (ui : Interface) (t : Table.TableView) : Interface :=
  mkInterface (df ui) t (mode ui) (editing ui) (calls ui).
Definition set_mode (ui : Interface) (m : Mode) : Interface :=
  mkInterface (df ui) (table ui) m (editing ui) (calls ui).
Definition set_editing (ui : Interface) (e : option editor_ref) : Interface :=
  mkInterface (df ui) (table ui) (mode ui) e (calls ui).
Definition record (ui : Interface) (c : call) : Interface :=
  mkInterface (df ui) (table ui) (mode ui) (editing ui) (calls ui ++ [c]).

(** [refresh()] *)
Definition refresh (ui : Interface) : Interface := record ui Refresh.

(** [add_command(command_dict, key, short_description)(fn)] *)
Definition add_command (command_dict : gmap string Command)
    (key short_description : string) (fn : Interface -> Interface * bool)
    (doc : string) : result (gmap string Command) :=
  match command_dict !! key with
  | Some _ => Raise KeyError
  | None => Ok (<[key := mkCommand key short_description fn doc]> command_dict)
  end.

(** *** The registered commands *)

Definition edit_filter (ui : Interface) : Interface * bool :=
  let ui := set_editing ui (Some TableFilter) in
  let cap := deref ui TableFilter in
  let ui := assign ui TableFilter
             (Editor.set_state cap (Editor.set_editing (Editor.state cap) true)) in
  (refresh ui, true).

Definition summary_mode (ui : Interface) : Interface * bool :=
  (refresh (set_mode ui SUMMARY), true).

Definition table_mode (ui : Interface) : Interface * bool :=
  (refresh (set_mode ui TABLE), true).

Definition scroll_left (ui : Interface) : Interface * bool :=
  let t := table ui in
  (refresh (set_table ui (Table.set_column_startat t (Table.column_startat t - 1))), true).

Definition scroll_down (ui : Interface) : Interface * bool :=
  (refresh (set_table ui (Table.increment_page (table ui))), true).

Definition scroll_up (ui : Interface) : Interface * bool :=
  (refresh (set_table ui (Table.decrement_page (table ui))), true).

Definition scroll_right (ui : Interface) : Interface * bool :=
  let t := table ui in
  (refresh (set_table ui (Table.set_column_startat t (Table.column_startat t + 1))), true).

Definition go_to_top (ui : Interface) : Interface * bool :=
  (refresh (set_table ui (Table.set_startat (table ui) 0)), true).

Definition go_to_bottom (ui : Interface) : Interface * bool :=
  let t := table ui in
  (refresh (set_table ui
     (Table.set_startat t (nrows (df ui) - Table._last_page_size t))), true).

Definition quit (ui : Interface) : Interface * bool := (ui, false).

Definition show_help (ui : Interface) : Interface * bool :=
  (refresh (set_mode ui HELP), true).

(** The docstring of [edit_filter]; the decorator stores the docstring of
    the function as the help text of its command. *)
Definition edit_filter_doc : string := "
        Edit the table filter.

        Supports arbitrary text, which will do a full row search for that text (converts
        cells to strings, so eg. you can search for substrings of typed data).

        Also supports pandas-style expressions. `df` as well as each individual column
        are in the namespace; for instance, `name.isna() & salary >= salary.max() - 1e4` is a valid filter.
        ".

(** The class attribute [commands], filled by the decorators in the order
    of the class body. *)
Definition register_commands : result (gmap string Command) :=
  d ← add_command ∅ "s" "(s)ummary" summary_mode "Show a summary of the database";
  d ← add_command d "t" "(t)able" table_mode "Show the database as a table";
  d ← add_command d "q" "(q)uit" quit "Quit";
  add_command d "?" "help" show_help "Show this help page".

(** The class attribute [table_commands]. *)
Definition register_table_commands : result (gmap string Command) :=
  d ← add_command ∅ "/" "filter" edit_filter edit_filter_doc;
  d ← add_command d "h" "scroll left" scroll_left
        "Scroll left one column in the table view";
  d ← add_command d "j" "scroll down" scroll_down
        "Scroll down one page in the table view";
  d ← add_command d "k" "scroll up" scroll_up
        "Scroll up one page in the table view";
  d ← add_command d "l" "scroll right" scroll_right
        "Scroll right one column in the table view";
  d ← add_command d "g" "Go to top" go_to_top "Go to the top of the table";
  add_command d "G" "Go to bottom" go_to_bottom "Go to the bottom of the table".

Definition registered (r : result (gmap string Command)) : gmap string Command :=
  match r with Ok d => d | Raise _ | Deferred _ => ∅ end.

Definition the_commands : gmap string Command := registered register_commands.
Definition the_table_commands : gmap string Command :=
  registered register_table_commands.

(** *** The keyboard handler *)

Section Handler.
(** The class attributes [commands] and [table_commands]. *)
Variables commands table_commands : gmap string Command.

(** The state in which an editing session ends: the editor after its
    finalize callback, marked as not editing, and no editor captures the
    input any more. *)
Definition end_editing (ui : Interface) (r : editor_ref) : Interface :=
  let cap := deref ui r in
  let cap := Editor.set_state cap (Editor.finalize cap (Editor.state cap)) in
  let ui := record (assign ui r cap) Finalize in
  let cap := deref ui r in
  let ui := assign ui r
              (Editor.set_state cap (Editor.set_editing (Editor.state cap) false)) in
  set_editing ui None.

(** The branch of [keyboard_handler] taken while an editor captures the
    input. *)
Definition handle_editing (ui : Interface) (r : editor_ref) (ch : string)
  : Interface * bool :=
  let '(ui, done) :=
    if String.eqb ch Editor.ESCAPE_KEY then (ui, true)
    else
      let cap := deref ui r in
      let buffer := Editor.value (Editor.edit_buffer (Editor.state cap) ch) in
      let '(cap, keep) := Editor.send_character cap ch in
      (record (assign ui r cap) (Update buffer), negb keep) in
  let ui := if done then end_editing ui r else ui in
  (refresh ui, true).

Definition keyboard_handler (ui : Interface) (ch : string) : Interface * bool :=
  match editing ui with
  | Some r => handle_editing ui r ch
  | None =>
      match (if decide (mode ui = TABLE) then table_commands !! ch else None) with
      | Some c => fn c ui
      | None =>
          match commands !! ch with
          | Some c => fn c ui
          | None => (ui, true)
          end
      end
  end.

(** The characters of one editing session: the handler is fed while the
    editor captures the input; what follows the end of the session is
    left unread.  The result is the final state and the values the
    handler returned. *)
Fixpoint feed_session (ui : Interface) (chars : list string)
  : Interface * list bool :=
  match chars with
  | [] => (ui, [])
  | ch :: chars' =>
      match editing ui with
      | None => (ui, [])
      | Some _ =>
          let '(ui', b) := keyboard_handler ui ch in
          let '(ui'', bs) := feed_session ui' chars' in
          (ui'', b :: bs)
      end
  end.

End Handler.

(** How often a call occurs in a log. *)
Definition count_call (c : call) (log : list call) : nat :=
  length (base.filter (fun c' => c' = c) log).

End Ui.


(* ===================================================================== *)
(** ** Characters typed at a prompt *)
(* ===================================================================== *)

Module Keys.
Import Py.

(** A character that the handler passes to the editor, that
    [send_character] appends to the buffer and after which [exit_on_return]
    goes on: a string of one character that is none of escape, ctrl-h,
    backspace, ctrl-k and newline. *)
Definition ordinary (ch : string) : bool :=
  match ch with
  | String a EmptyString =>
      negb (Ascii.eqb a "027" || Ascii.eqb a "008" || Ascii.eqb a "127"
            || Ascii.eqb a "011" || Ascii.eqb a LF)
  | _ => false
  end.

(** The text that a sequence of characters spells. *)
Definition typed (chars : list string) : string := foldr String.append "" chars.

End Keys.

(* ===================================================================== *)
(** ** The plain table of src/dbv/df.py *)
(* ===================================================================== *)

Module Df.
Import Py Frame.

(** A rich [Table], as far as [df_to_rich_table] fills it: its title, the
    headers of its columns and its rows of cells.  [add_row] is modelled for
    rows that have one cell per column, which is what a well-formed frame
    gives. *)
Record RichTable : Type := mkRichTable {
  title : option string;
  table_columns : list string;
  table_rows : list (list string);
}.

Definition add_column (t : RichTable) (header : string) : RichTable :=
  mkRichTable (title t) (table_columns t ++ [header]) (table_rows t).

Definition add_row (t : RichTable) (cells : list string) : RichTable :=
  mkRichTable (title t) (table_columns t) (table_rows t ++ [cells]).

(** [df_to_rich_table(df, title)]: a blank header for the index, one header
    per column, and for every row of [iterrows] the index and the cells, as
    strings. *)
Definition df_to_rich_table (df : DataFrame) (title : option string) : RichTable :=
  let table := mkRichTable title [] [] in
  let table := add_column table " " in
  let table := fold_left add_column (columns df) table in
  fold_left (fun t (r : row) => add_row t (map str (CInt r.1 :: r.2)))
    (rows df) table.

End Df.

(* ===================================================================== *)
(** ** The headers of src/utils/data_gen.py *)
(* ===================================================================== *)

Module DataGen.

Inductive Columns : Type :=
| NAME | ADDRESS | PHONE_NUMBER | DATE_OF_BIRTH | JOB | BANK_ACCOUNT | SSN.

#[global] Instance Columns_eq_dec : EqDecision Columns.
Proof. solve_decision. Defined.

(** The value of an enum member. *)
Definition value_of (c : Columns) : Z :=
  match c with
  | NAME => 1 | ADDRESS => 2 | PHONE_NUMBER => 3 | DATE_OF_BIRTH => 4
  | JOB => 5 | BANK_ACCOUNT => 6 | SSN => 7
  end%Z.

(** [tuple(Columns)]: the members in the order of their definition. *)
Definition DEFAULT_COLUMNS : list Columns :=
  [NAME; ADDRESS; PHONE_NUMBER; DATE_OF_BIRTH; JOB; BANK_ACCOUNT; SSN].

(** The dictionary [header_dict] of [_get_headers]. *)
Definition header_dict (c : Columns) : string :=
  match c with
  | NAME => "Name"
  | ADDRESS => "Address"
  | PHONE_NUMBER => "Phone_Number"
  | DATE_OF_BIRTH => "Date_of_Birth"
  | JOB => "Job"
  | BANK_ACCOUNT => "Bank_Account"
  | SSN => "SSN"
  end.

(** [DataGenerator._get_headers] for [self.columns = columns]. *)
Definition _get_headers (columns : list Columns) : list string :=
  map header_dict columns.

End DataGen.

(* ===================================================================== *)
(** ** Data for the examples *)
(* ===================================================================== *)

Module Examples.
Import Py Frame Table.

(** The DataFrame class of the examples: [size], [index] and [count] are
    attributes of the class, and their values have neither [to_frame] nor
    [map].  The examples need no more of the class; what is stated of every
    frame is proved for every class. *)
#[global] Instance example_class : DataFrameClass := {|
  is_attribute c := existsb (String.eqb c) ["size"; "index"; "count"];
  attribute_to_frame _ _ := Raise AttributeError;
  attribute_contains _ _ _ := Raise AttributeError;
|}.

(** A source with two columns and three rows. *)
Definition three_rows : DataFrame :=
  mkDataFrame ["Name"; "Age"]
    [(0, [CStr "Ann"; CInt 31]); (1, [CStr "Bob"; CInt 25]);
     (2, [CStr "Cy"; CInt 47])]%Z.

(** A table view of [d] whose filter editor holds [text]. *)
Definition view_with_filter (d : DataFrame) (text : string) : TableView :=
  set_filter (init d)
    (Editor.mkCapture (Editor.mkState (Some "filter: ") text false)
       Editor.exit_on_return Editor.default_finalize).

(** An evaluator on which every expression fails with [e]. *)
Definition eval_raises (e : exn) (text : string) (df : DataFrame) : result value :=
  Raise e.

(** The expression ['Age'] evaluates to the string [Age]. *)
Definition eval_label (text : string) (df : DataFrame) : result value :=
  if String.eqb text "'Age'" then Ok (VScalar (CStr "Age")) else Raise NameError.

(** The ages, doubled: the value of the expression [Age * 2]. *)
Definition doubled_ages : Series :=
  mkSeries "Age" [(0, CInt 62); (1, CInt 50); (2, CInt 94)]%Z.

Definition eval_doubling (text : string) (df : DataFrame) : result value :=
  if String.eqb text "Age * 2" then Ok (VSeries doubled_ages) else Raise NameError.

(** A width measurement for the examples: the longest text of the column,
    header included. *)
Definition text_width (c : Column) : Z :=
  Z.of_nat (foldr Nat.max (String.length (header c))
              (map (fun v => String.length (str v)) (_cells c))).

(** The same measurement at all console options. *)
Definition text_measure (options : ConsoleOptions) (c : Column) : Z :=
  text_width c.


(** A source with a column named [size]. *)
Definition sized_rows : DataFrame :=
  mkDataFrame ["item"; "size"]
    [(0, [CStr "box"; CInt 3]); (1, [CStr "bag"; CInt 5])]%Z.

(** The expression [Age > 30] evaluates to a boolean value per row on
    [three_rows]. *)
Definition eval_mask (text : string) (df : DataFrame) : result value :=
  if String.eqb text "Age > 30" then Ok (VMask [true; false; true])
  else Raise NameError.

(** The interface on [three_rows] after the key [/]: the filter editor
    captures the input. *)
Definition filter_prompt_ui : Ui.Interface :=
  fst (Ui.edit_filter (Ui.init three_rows)).

(** A source with one column and 55 rows. *)
Definition fifty_five_rows : DataFrame :=
  mkDataFrame ["n"] (map (fun i => (Z.of_nat i, [CInt (Z.of_nat i)])) (seq 0 55)).

End Examples.

(* ===================================================================== *)
(** * Properties *)
(* ===================================================================== *)

(** ** The error monad *)

Lemma bind_Ok {A B} (a : A) (k : A → Py.result B) : (Py.Ok a ≫= k) = k a.
Proof. reflexivity. Qed.

Lemma bind_Raise {A B} (e : Py.exn) (k : A → Py.result B) :
  (Py.Raise e ≫= k) = Py.Raise e.
Proof. reflexivity. Qed.

Lemma fmap_Ok {A B} (f : A → B) (a : A) : f <$> Py.Ok a = Py.Ok (f a).
Proof. reflexivity. Qed.

Lemma fmap_Raise {A B} (f : A → B) (e : Py.exn) :
  f <$> (Py.Raise e : Py.result A) = Py.Raise e.
Proof. reflexivity. Qed.

Lemma bind_Deferred {A B} (e : Py.exn) (k : A → Py.result B) :
  (Py.Deferred e ≫= k) = Py.Deferred e.
Proof. reflexivity. Qed.

(** ** Strings *)

Section StringFacts.
Import Py.

Lemma append_nil_l (s : string) : "" +:+ s = s.
Proof. reflexivity. Qed.

Lemma append_cons (a : ascii) (s t : string) :
  String a s +:+ t = String a (s +:+ t).
Proof. reflexivity. Qed.

Lemma append_nil_r (s : string) : s +:+ "" = s.
Proof. induction s as [|a s IH]; [done|]. by rewrite append_cons, IH. Qed.

Lemma append_assoc (s t u : string) : (s +:+ t) +:+ u = s +:+ (t +:+ u).
Proof.
  induction s as [|a s IH]; [done|].
  by rewrite !append_cons, IH.
Qed.

Lemma append_eq_nil (s t : string) : s +:+ t = "" → s = "" ∧ t = "".
Proof. destruct s; [rewrite append_nil_l; auto | rewrite append_cons; discriminate]. Qed.

(** [endswith] is the suffix relation. *)
Lemma endswith_iff (s suffix : string) :
  endswith s suffix = true ↔ ∃ p, s = p +:+ suffix.
Proof.
  induction s as [|a s IH].
  - change (endswith "" suffix) with (String.eqb "" suffix || false).
    rewrite orb_false_r, String.eqb_eq. split.
    + intros <-. by exists "".
    + intros [p Hp]. symmetry in Hp. apply append_eq_nil in Hp. by destruct Hp.
  - change (endswith (String a s) suffix)
      with (String.eqb (String a s) suffix || endswith s suffix).
    rewrite orb_true_iff, String.eqb_eq, IH. split.
    + intros [<- | [p ->]]; [by exists "" | by exists (String a p)].
    + intros [[|b p] Hp].
      * left. by rewrite append_nil_l in Hp.
      * right. rewrite append_cons in Hp. injection Hp as _ ->. by exists p.
Qed.

(** [String.prefix] is the prefix relation. *)
Lemma prefix_iff (pat s : string) :
  String.prefix pat s = true ↔ ∃ b, s = pat +:+ b.
Proof.
  revert s. induction pat as [|a pat IH]; intros [|c s]; simpl.
  - split; [intros _; by exists "" | done].
  - split; [intros _; by exists (String c s) | done].
  - split; [done | intros [b Hb]; by rewrite append_cons in Hb].
  - destruct (ascii_dec a c) as [<- | Hne].
    + rewrite IH. split; intros [b Hb]; exists b.
      * by rewrite append_cons, Hb.
      * rewrite append_cons in Hb. by injection Hb.
    + split; [done | intros [b Hb]]. rewrite append_cons in Hb.
      injection Hb as -> _. done.
Qed.

(** [contains s pat] holds exactly when [pat] occurs in [s]. *)
Lemma contains_iff (s pat : string) :
  contains s pat = true ↔ ∃ a b, s = a +:+ pat +:+ b.
Proof.
  induction s as [|c s IH].
  - change (contains "" pat) with (String.prefix pat "" || false).
    rewrite orb_false_r, prefix_iff. split.
    + intros [b Hb]. by exists "", b.
    + intros [a [b Hab]]. symmetry in Hab.
      apply append_eq_nil in Hab as [-> Hab]. exists b. by rewrite Hab.
  - change (contains (String c s) pat)
      with (String.prefix pat (String c s) || contains s pat).
    rewrite orb_true_iff, prefix_iff, IH. split.
    + intros [[b Hb] | [a [b ->]]]; [by exists "", b | by exists (String c a), b].
    + intros [[|d a] [b Hab]].
      * left. exists b. by rewrite append_nil_l in Hab.
      * right. rewrite append_cons in Hab. injection Hab as _ ->. by exists a, b.
Qed.

(** What [rstrip_by] removes is a suffix made of stripped characters. *)
Lemma rstrip_by_split (p : ascii → bool) (s : string) :
  ∃ t, s = rstrip_by p s +:+ t
       ∧ Forall (fun a => p a = true) (String.list_ascii_of_string t).
Proof.
  induction s as [|a s [t [Hs Ht]]]; simpl.
  - exists "". by split; [|constructor].
  - destruct (rstrip_by p s) as [|b r] eqn:Hr.
    + rewrite append_nil_l in Hs. subst t.
      destruct (p a) eqn:Hpa.
      * exists (String a s). split; [done|]. simpl. by constructor.
      * exists s. by split.
    + exists t. split; [|done]. by rewrite append_cons, <- Hs.
Qed.

(** What [rstrip_by] leaves does not end with a stripped character. *)
Lemma rstrip_by_last (p : ascii → bool) (s r : string) (a : ascii) :
  rstrip_by p s = r +:+ String a "" → p a = false.
Proof.
  revert r. induction s as [|c s IH]; intros r; simpl.
  - intros H. symmetry in H. by apply append_eq_nil in H as [_ ?].
  - destruct (rstrip_by p s) as [|b r'] eqn:Hr.
    + destruct (p c) eqn:Hpc.
      * intros H. symmetry in H. by apply append_eq_nil in H as [_ ?].
      * destruct r as [|d r]; [rewrite append_nil_l | rewrite append_cons].
        -- by intros [= ->].
        -- intros [= _ H]. symmetry in H. by apply append_eq_nil in H as [_ ?].
    + destruct r as [|d r]; [rewrite append_nil_l | rewrite append_cons].
      * discriminate.
      * intros [= _ H]. by apply (IH r).
Qed.

(** What [lstrip_by] removes is a prefix made of stripped characters. *)
Lemma lstrip_by_split (p : ascii → bool) (s : string) :
  ∃ l, s = l +:+ lstrip_by p s
       ∧ Forall (fun a => p a = true) (String.list_ascii_of_string l).
Proof.
  induction s as [|a s [l [Hs Hl]]]; simpl.
  - exists "". by split; [|constructor].
  - destruct (p a) eqn:Hpa.
    + exists (String a l). split; [by rewrite append_cons, <- Hs|].
      simpl. by constructor.
    + exists "". by split; [|constructor].
Qed.

(** [strip] removes whitespace on both sides and nothing else. *)
Lemma strip_split (s : string) :
  ∃ l r, s = l +:+ strip s +:+ r
         ∧ Forall (fun a => isspace a = true) (String.list_ascii_of_string l)
         ∧ Forall (fun a => isspace a = true) (String.list_ascii_of_string r).
Proof.
  destruct (rstrip_by_split isspace s) as [r [Hr Hsr]].
  destruct (lstrip_by_split isspace (rstrip_by isspace s)) as [l [Hl Hsl]].
  exists l, r. split; [|by split].
  unfold strip. by rewrite <- append_assoc, <- Hl.
Qed.

Lemma char_in_CRLF (a : ascii) :
  char_in a Editor.CRLF = true ↔ a = CR ∨ a = LF.
Proof.
  unfold Editor.CRLF. simpl. rewrite orb_false_r, orb_true_iff, !Ascii.eqb_eq. done.
Qed.

End StringFacts.

(** ** The editor *)

Section EditorFacts.
Import Py Editor.

Lemma exit_on_return_keep (cap : CaptureState) (s : string) :
  snd (exit_on_return cap s) = negb (endswith s NEWLINE).
Proof. unfold exit_on_return. by destruct (endswith s NEWLINE). Qed.

(** The policy looks at the string it is handed and strips the editor's
    value. *)
Lemma exit_on_return_cases (cap : CaptureState) (s : string) :
  (endswith s NEWLINE = true
   ∧ exit_on_return cap s = (set_value cap (rstrip (value cap) CRLF), false))
  ∨ (endswith s NEWLINE = false ∧ exit_on_return cap s = (cap, true)).
Proof. unfold exit_on_return. destruct (endswith s NEWLINE); auto. Qed.

(** [send_character] edits the buffer and hands it to the update callback,
    once. *)
Lemma send_character_update (cap : CaptureKeyboardInput) (ch : string) :
  let st := edit_buffer (state cap) ch in
  send_character cap ch
  = (set_state cap (fst (update cap st (value st))), snd (update cap st (value st))).
Proof. unfold send_character. simpl. by destruct (update cap _ _). Qed.

(** Backspace on an empty buffer changes nothing. *)
Lemma backspace_on_empty_buffer (p : option string) (e : bool) :
  edit_buffer (mkState p "" e) BACKSPACE = mkState p "" e
  ∧ edit_buffer (mkState p "" e) CTRL_H = mkState p "" e.
Proof. done. Qed.

(** C8: the default policy of the filter prompt, on the buffer [value cap]
    that [send_character] hands it, answers [false] (stop editing) exactly
    when the buffer ends with a newline; it then commits the buffer without
    its trailing carriage returns and newlines: the committed value is the
    buffer minus a suffix made of those two characters only, and it does not
    end with either.  When it answers [true] the editor is left as it was. *)
Theorem exit_on_return_policy (cap : CaptureState) :
  let buffer := value cap in
  let answer := exit_on_return cap buffer in
  let committed := value (fst answer) in
  (snd answer = false ↔ ∃ p, buffer = p +:+ NEWLINE)
  ∧ (snd answer = true → fst answer = cap)
  ∧ (snd answer = false →
       committed = rstrip buffer CRLF
       ∧ prompt (fst answer) = prompt cap
       ∧ editing (fst answer) = editing cap
       ∧ (∃ t, buffer = committed +:+ t
               ∧ Forall (fun a => a = CR ∨ a = LF) (String.list_ascii_of_string t))
       ∧ (∀ r a, committed = r +:+ String a "" → a ≠ CR ∧ a ≠ LF)).
Proof.
  intros buffer answer committed. subst committed answer.
  destruct (exit_on_return_cases cap buffer) as [[He ->] | [He ->]]; simpl.
  - split; [|split]; [| done |].
    + split; [intros _; by apply endswith_iff | done].
    + intros _. split; [done|]. split; [done|]. split; [done|]. split.
      * destruct (rstrip_by_split (fun a => char_in a CRLF) buffer) as [t [Hs Ht]].
        exists t. split; [exact Hs|].
        eapply Forall_impl; [exact Ht|]. intros a Ha. by apply char_in_CRLF.
      * intros r a Hr. apply rstrip_by_last in Hr.
        destruct (char_in a CRLF) eqn:Hc; [done|].
        split; intros ->; by vm_compute in Hc.
  - split; [|split]; [| done | done].
    split; [done|]. intros Hp. apply endswith_iff in Hp. congruence.
Qed.

(** The same through [send_character], for an editor that uses the policy. *)
Lemma send_character_exit_on_return (cap : CaptureKeyboardInput) (ch : string) :
  update cap = exit_on_return →
  let buffer := value (edit_buffer (state cap) ch) in
  (snd (send_character cap ch) = false ↔ ∃ p, buffer = p +:+ NEWLINE)
  ∧ (snd (send_character cap ch) = false →
       value (state (fst (send_character cap ch))) = rstrip buffer CRLF)
  ∧ (snd (send_character cap ch) = true →
       value (state (fst (send_character cap ch))) = buffer).
Proof.
  intros Hu buffer. rewrite send_character_update. cbn [fst snd state set_state].
  rewrite Hu. fold buffer.
  destruct (exit_on_return_cases (edit_buffer (state cap) ch) buffer)
    as [[He ->] | [He ->]]; cbn [fst snd value set_value].
  - split; [split; [intros _; by apply endswith_iff | done]|]. by split.
  - split; [|by split].
    split; [done|]. intros Hp. apply endswith_iff in Hp. congruence.
Qed.

Example exit_on_return_strips_crlf :
  exit_on_return (mkState None ("Age > 30" +:+ CRLF) true) ("Age > 30" +:+ CRLF)
  = (mkState None "Age > 30" true, false).
Proof. reflexivity. Qed.

Example exit_on_return_keeps_editing :
  exit_on_return (mkState None "Age > 3" true) "Age > 3"
  = (mkState None "Age > 3" true, true).
Proof. reflexivity. Qed.

End EditorFacts.

(** ** Scrolling *)

Section ScrollFacts.
Import Py Frame Table Examples.

Lemma increment_page_last_page_size (tv : TableView) :
  _last_page_size (increment_page tv) = _last_page_size tv.
Proof. done. Qed.

Lemma set_startat_stored (tv : TableView) (s : Z) :
  startat (set_startat tv s) = Z.min (nrows (df tv) - 1) (Z.max 0 s).
Proof. done. Qed.

Lemma set_column_startat_stored (tv : TableView) (c : Z) :
  column_startat (set_column_startat tv c)
  = Z.min (len (columns (df tv)) - 1) (Z.max 0 c).
Proof. done. Qed.

(** X1: on a source with at least one row, whatever row offset is requested
    through the setter, the stored offset is a row of the source:
    [0 ≤ startat < max(rowCount, 1)]. *)
Lemma set_startat_in_range (tv : TableView) (s : Z) :
  (1 ≤ nrows (df tv))%Z →
  (0 ≤ startat (set_startat tv s) < Z.max (nrows (df tv)) 1)%Z.
Proof. rewrite set_startat_stored. lia. Qed.

Lemma set_startat_in_range_witness :
  (1 ≤ nrows (df (init (mkDataFrame ["a"] [(0, [CInt 1]); (1, [CInt 2])]%Z))))%Z
  ∧ (0 ≤ startat (set_startat (init (mkDataFrame ["a"] [(0, [CInt 1]); (1, [CInt 2])]%Z)) 7)
     < Z.max (nrows (df (init (mkDataFrame ["a"] [(0, [CInt 1]); (1, [CInt 2])]%Z)))) 1)%Z.
Proof.
  assert (1 ≤ nrows (df (init (mkDataFrame ["a"] [(0, [CInt 1]); (1, [CInt 2])]%Z))))%Z
    as H by (vm_compute; discriminate).
  exact (conj H (set_startat_in_range
                   (init (mkDataFrame ["a"] [(0, [CInt 1]); (1, [CInt 2])]%Z)) 7 H)).
Defined.

(** C1: on a source without rows the setter stores [-1], whatever offset is
    requested: [len(df) - 1] is the smaller argument of [min].  The stored
    value is below 0, outside [0 ≤ startat < max(rowCount, 1)]. *)
Theorem set_startat_empty_source
    (cols : list string) (page start cstart : Z)
    (flt : Editor.CaptureKeyboardInput) (s : Z) :
  startat (set_startat (mkTableView (mkDataFrame cols []) page start cstart flt) s)
  = (-1)%Z.
Proof. rewrite set_startat_stored. unfold nrows, len. simpl. lia. Qed.

(** With a negative offset the page cannot be materialized: [islice] refuses
    a negative start. *)
Lemma islice_negative_start {A} (it : list A) (start stop : Z) :
  (start < 0)%Z → islice it start stop = Raise ValueError.
Proof.
  intros H. unfold islice.
  destruct (Z.ltb_spec start 0) as [_|?]; [done | lia].
Qed.

(** When a clamp has no effect the requested offset is in range (for a
    source with rows), and conversely. *)
Lemma set_startat_no_effect (tv : TableView) (s : Z) :
  (1 ≤ nrows (df tv))%Z →
  startat (set_startat tv s) = s ↔ (0 ≤ s ≤ nrows (df tv) - 1)%Z.
Proof. rewrite set_startat_stored. lia. Qed.

(** C6: page-down then page-up, with the page size recorded by the last
    rendering, returns to the row offset it started from whenever neither
    setter clamps, that is, whenever each stores the offset it is asked to
    store. *)
Theorem page_down_then_page_up (tv : TableView) :
  startat (increment_page tv) = (startat tv + _last_page_size tv)%Z →
  startat (decrement_page (increment_page tv))
  = (startat (increment_page tv) - _last_page_size (increment_page tv))%Z →
  startat (decrement_page (increment_page tv)) = startat tv.
Proof.
  intros Hdown Hup. rewrite Hup, Hdown, increment_page_last_page_size. lia.
Qed.

(** The whole view is restored when both requested offsets are rows of the
    source. *)
Lemma page_down_then_page_up_in_range (tv : TableView) :
  (0 ≤ startat tv + _last_page_size tv ≤ nrows (df tv) - 1)%Z →
  (0 ≤ startat tv ≤ nrows (df tv) - 1)%Z →
  decrement_page (increment_page tv) = tv.
Proof.
  intros H1 H2. destruct tv as [d p s c f].
  unfold decrement_page, increment_page, set_startat, startat in *. simpl in *.
  f_equal. lia.
Qed.

Lemma page_down_then_page_up_witness :
  let tv := mkTableView three_rows 1 1 0 (_filter (init three_rows)) in
  startat (increment_page tv) = (startat tv + _last_page_size tv)%Z
  ∧ startat (decrement_page (increment_page tv))
    = (startat (increment_page tv) - _last_page_size (increment_page tv))%Z
  ∧ startat (decrement_page (increment_page tv)) = startat tv.
Proof.
  intros tv.
  assert (startat (increment_page tv) = (startat tv + _last_page_size tv)%Z)
    as Hdown by reflexivity.
  assert (startat (decrement_page (increment_page tv))
          = (startat (increment_page tv) - _last_page_size (increment_page tv))%Z)
    as Hup by reflexivity.
  exact (conj Hdown (conj Hup (page_down_then_page_up tv Hdown Hup))).
Defined.

End ScrollFacts.

(** ** The data source *)

Section FrameFacts.
Import Py Frame.
Context {frame_class : DataFrameClass}.

Lemma position_Some (c : string) (cols : list string) (j : nat) :
  position c cols = Some j ↔
  cols !! j = Some c ∧ ∀ i, i < j → cols !! i ≠ Some c.
Proof.
  unfold position. split.
  - destruct (list_find _ cols) as [[i x]|] eqn:Hf; [|done].
    intros [= <-]. apply list_find_Some in Hf as (Hl & -> & Hmin).
    split; [done|]. intros k Hk Hc. by apply (Hmin k c).
  - intros [Hl Hmin].
    assert (list_find (λ c', c' = c) cols = Some (j, c)) as ->; [|done].
    apply list_find_Some. split; [done|]. split; [done|].
    intros i y Hy Hi ->. by apply (Hmin i).
Qed.

Lemma position_None (c : string) (cols : list string) :
  position c cols = None ↔ c ∉ cols.
Proof.
  unfold position. rewrite fmap_None, list_find_None, Forall_forall. split.
  - intros H Hc. by apply (H c).
  - intros H x Hx ->. done.
Qed.

Lemma position_elem_of (c : string) (cols : list string) :
  c ∈ cols → ∃ j, position c cols = Some j.
Proof.
  intros Hc. destruct (position c cols) as [j|] eqn:Hp; [by exists j|].
  by apply position_None in Hp.
Qed.

Lemma position_NoDup (c : string) (cols : list string) (j : nat) :
  NoDup cols → cols !! j = Some c → position c cols = Some j.
Proof.
  intros Hnd Hj. apply position_Some. split; [done|].
  intros i Hi Hc. pose proof (NoDup_lookup _ _ _ _ Hnd Hc Hj). lia.
Qed.

(** Attribute access to a column name that the class does not define
    yields that column. *)
Lemma getattr_column (df : DataFrame) (c : string) :
  is_attribute c = false →
  c ∈ columns df →
  ∃ j, position c (columns df) = Some j
       ∧ getattr df c = Ok (AttrColumn (mkSeries c (column_at j df))).
Proof.
  intros Ha Hc. destruct (position_elem_of _ _ Hc) as [j Hj].
  exists j. split; [done|]. unfold getattr. by rewrite Ha, Hj.
Qed.

(** Attribute access to a name that the class defines yields the attribute
    of the class, whether a column has that name or not. *)
Lemma getattr_attribute (df : DataFrame) (c : string) :
  is_attribute c = true → getattr df c = Ok (AttrMember c).
Proof. intros Ha. unfold getattr. by rewrite Ha. Qed.

Lemma compress_map {A} (g : A → bool) (l : list A) :
  compress l (map g l) = List.filter g l.
Proof.
  induction l as [|x l IH]; [done|]. simpl. rewrite IH. by destruct (g x).
Qed.

Lemma mask_or_map {A} (g h : A → bool) (l : list A) :
  mask_or (map g l) (map h l) = map (fun x => g x || h x) l.
Proof.
  unfold mask_or. induction l as [|x l IH]; [done|]. simpl. by rewrite IH.
Qed.

Lemma str_contains_column (df : DataFrame) (c text : string) (j : nat) :
  str_contains (mkSeries c (column_at j df)) text = contains_mask df text j.
Proof. unfold str_contains, contains_mask, column_at. simpl. by rewrite map_map. Qed.

(** Folding the masks with [|] gives, row by row, the disjunction over the
    columns. *)
Lemma fold_mask_or (df : DataFrame) (text : string) (js : list nat)
    (g : row → bool) :
  fold_left mask_or (map (contains_mask df text) js) (map g (rows df))
  = map (fun r => g r || existsb (fun j => contains (str (cell_at j r)) text) js)
        (rows df).
Proof.
  revert g. induction js as [|j js IH]; intros g; simpl.
  - apply map_ext. intros r. by rewrite orb_false_r.
  - unfold contains_mask at 2. rewrite mask_or_map, IH.
    apply map_ext. intros r. by rewrite orb_assoc.
Qed.

(** Over the positions of a row, the disjunction is the disjunction over its
    cells. *)
Lemma existsb_positions (f : cell → bool) (cells pre : list cell) :
  existsb (fun j => f (default CNone ((pre ++ cells) !! j))) (seq (length pre) (length cells))
  = existsb f cells.
Proof.
  revert pre. induction cells as [|c cells IH]; intros pre; [done|].
  simpl. rewrite list_lookup_middle by done. simpl. f_equal.
  specialize (IH (pre ++ [c])).
  rewrite length_app, <- app_assoc in IH. simpl in IH.
  by rewrite Nat.add_1_r in IH.
Qed.

Lemma row_matches_iff (text : string) (r : row) :
  row_matches text r = true ↔
  ∃ c, c ∈ r.2 ∧ ∃ a b, str c = a +:+ text +:+ b.
Proof.
  unfold row_matches. rewrite existsb_exists. split.
  - intros [c [Hin Hc]]. exists c. split; [by apply list_elem_of_In|].
    by apply contains_iff.
  - intros [c [Hin Hc]]. exists c. split; [by apply list_elem_of_In|].
    by apply contains_iff.
Qed.

End FrameFacts.

(** ** The filter *)

Section FilterFacts.
Import Py Frame Table.
Context {frame_class : DataFrameClass}.
Variable py_eval : string → DataFrame → result value.

(** The masks of the fallback for a frame with distinct column names, none
    of which is the name of an attribute of the class: one per column
    position. *)
Lemma column_masks_positions (df : DataFrame) (text : string)
    (pre cols : list string) :
  NoDup (columns df) →
  Forall (fun c => is_attribute c = false) cols →
  columns df = pre ++ cols →
  column_masks df cols text
  = Ok (map (contains_mask df text) (seq (length pre) (length cols))).
Proof.
  intros Hnd Hattr. revert pre.
  induction cols as [|c cols IH]; intros pre Hcols; [done|].
  apply Forall_cons in Hattr as [Hc Hattr].
  simpl. unfold getattr. rewrite Hc.
  rewrite (position_NoDup c (columns df) (length pre) Hnd)
    by (rewrite Hcols; apply list_lookup_middle; done).
  py_step. rewrite (IH Hattr (pre ++ [c])) by (by rewrite <- app_assoc).
  py_step. rewrite length_app, str_contains_column. simpl. by rewrite Nat.add_1_r.
Qed.

(** The masks up to a column that has the name of an attribute of the
    class: the fallback applies [map] to the attribute, and what that raises
    is what the list of masks raises. *)
Lemma column_masks_attribute (df : DataFrame) (text c : string)
    (pre post : list string) (e : exn) :
  Forall (fun c' => c' ∈ columns df ∧ is_attribute c' = false) pre →
  is_attribute c = true →
  attribute_contains df c text = Raise e →
  column_masks df (pre ++ c :: post) text = Raise e.
Proof.
  intros Hpre Hc He. induction Hpre as [|c' pre [Hin Ha] _ IH]; simpl.
  - rewrite (getattr_attribute df c Hc). py_step. by rewrite He.
  - destruct (getattr_column df c' Ha Hin) as (j & _ & ->). py_step.
    by rewrite IH.
Qed.

(** The substring search on a well-formed frame with at least one column,
    none of which has the name of an attribute of the class, keeps, in their
    order, the rows one of whose cells contains the text. *)
Lemma substring_search_rows (df : DataFrame) (text : string) :
  wf df → columns df ≠ [] →
  Forall (fun c => is_attribute c = false) (columns df) →
  substring_search df text
  = Ok (mkDataFrame (columns df) (List.filter (row_matches text) (rows df))).
Proof.
  intros [Hnd Hrows] Hne Hattr. unfold substring_search.
  rewrite (column_masks_positions df text [] (columns df) Hnd Hattr eq_refl). simpl.
  clear Hattr.
  destruct (columns df) as [|c cols] eqn:Hc; [done|]. simpl.
  assert (fold_left mask_or (map (contains_mask df text) (seq 1 (length cols)))
            (contains_mask df text 0)
          = map (row_matches text) (rows df)) as ->.
  { unfold contains_mask at 2. rewrite fold_mask_or.
    apply map_ext_Forall. eapply Forall_impl; [exact Hrows|].
    intros r Hr. simpl in Hr. unfold row_matches.
    pose proof (existsb_positions (fun v => contains (str v) text) r.2 []) as He.
    simpl in He. rewrite <- He, Hr. done. }
  unfold select_rows. rewrite length_map.
  destruct (decide _) as [_|?]; [|done].
  by rewrite compress_map, Hc.
Qed.

(** Without columns the fallback fails: there is no mask to reduce. *)
Lemma substring_search_no_columns (rs : list row) (text : string) :
  substring_search (mkDataFrame [] rs) text = Raise TypeError.
Proof. done. Qed.

(** A filter text that is a column name, up to surrounding whitespace,
    compiles to that column, unless the class defines an attribute of that
    name. *)
Lemma compile_filter_column (df : DataFrame) (text : string) :
  strip text ∈ columns df →
  is_attribute (strip text) = false →
  ∃ j, position (strip text) (columns df) = Some j
       ∧ compile_filter py_eval (Some text) df
         = Ok (ASeries (mkSeries (strip text) (column_at j df))).
Proof.
  intros Hin Ha. destruct (getattr_column df _ Ha Hin) as [j [Hj Hg]].
  exists j. split; [done|]. unfold compile_filter.
  destruct (decide _) as [_|?]; [|done]. by rewrite Hg.
Qed.

(** When the class defines an attribute of that name, the text compiles to
    the attribute. *)
Lemma compile_filter_attribute (df : DataFrame) (text : string) :
  strip text ∈ columns df →
  is_attribute (strip text) = true →
  compile_filter py_eval (Some text) df = Ok (AMember (strip text)).
Proof.
  intros Hin Ha. unfold compile_filter.
  destruct (decide _) as [_|?]; [|done]. by rewrite (getattr_attribute df _ Ha).
Qed.

(** Otherwise the text is evaluated and the frame is indexed by the
    result. *)
Lemma compile_filter_eval (df : DataFrame) (text : string) :
  strip text ∉ columns df →
  compile_filter py_eval (Some text) df
  = (evaluated ← py_eval text df; getitem df evaluated).
Proof. intros Hn. unfold compile_filter. by destruct (decide _). Qed.

(** Any exception of the [try] body leads to the substring search. *)
Lemma filter_frame_fallback (tv : TableView) (df : DataFrame) (text : string) (e : exn) :
  filter_value tv = Some text →
  (x ← compile_filter py_eval (Some text) df; as_frame df x) = Raise e →
  filter_frame py_eval tv df = substring_search df text.
Proof. intros Hf Hc. unfold filter_frame. by rewrite Hf, Hc. Qed.

Lemma filter_frame_ok (tv : TableView) (df f : DataFrame) (text : string) :
  filter_value tv = Some text →
  (x ← compile_filter py_eval (Some text) df; as_frame df x) = Ok f →
  filter_frame py_eval tv df = Ok f.
Proof. intros Hf Hc. unfold filter_frame. by rewrite Hf, Hc. Qed.

(** A lazy frame that cannot be computed is returned as it is: nothing is
    raised inside the [try]. *)
Lemma filter_frame_deferred (tv : TableView) (df : DataFrame) (text : string) (e : exn) :
  filter_value tv = Some text →
  (x ← compile_filter py_eval (Some text) df; as_frame df x) = Deferred e →
  filter_frame py_eval tv df = Deferred e.
Proof. intros Hf Hc. unfold filter_frame. by rewrite Hf, Hc. Qed.

(** Without a filter text the source is returned unchanged (through the
    exception of [None.strip()]). *)
Lemma filter_frame_no_filter (tv : TableView) (df : DataFrame) :
  filter_value tv = None → filter_frame py_eval tv df = Ok df.
Proof. intros Hf. unfold filter_frame. by rewrite Hf. Qed.

(** The filter text is never empty. *)
Lemma filter_value_nonempty (tv : TableView) (text : string) :
  filter_value tv = Some text → text ≠ "".
Proof.
  unfold filter_value. destruct (Editor.value _); [done|]. by intros [= <-].
Qed.

(** X6: on a well-formed frame with at least one column, none of which has
    the name of an attribute of the DataFrame class, when evaluating a
    filter text (that is no column name) raises an error, the filter step
    returns the frame with the same columns and, in their order, exactly the
    rows one of whose cells, as a string, contains the text. *)
Lemma filter_frame_eval_error (tv : TableView) (df : DataFrame) (text : string) (e : exn) :
  wf df → columns df ≠ [] →
  Forall (fun c => is_attribute c = false) (columns df) →
  filter_value tv = Some text →
  strip text ∉ columns df →
  py_eval text df = Raise e →
  ∃ kept, filter_frame py_eval tv df = Ok (mkDataFrame (columns df) kept)
          ∧ kept = List.filter (row_matches text) (rows df)
          ∧ ∀ r, r ∈ kept ↔
                 r ∈ rows df ∧ ∃ c, c ∈ r.2 ∧ ∃ a b, str c = a +:+ text +:+ b.
Proof.
  intros Hwf Hne Hattr Hf Hn He.
  exists (List.filter (row_matches text) (rows df)). split; [|split; [done|]].
  - rewrite (filter_frame_fallback tv df text e Hf).
    + by apply substring_search_rows.
    + rewrite compile_filter_eval by done. by rewrite He.
  - intros r. rewrite list_elem_of_In, filter_In, <- list_elem_of_In, row_matches_iff.
    done.
Qed.

(** Indexing yields a single column exactly for the label of a column. *)
Lemma getitem_series (df : DataFrame) (v : value) (s : Series) :
  getitem df v = Ok (ASeries s) ↔
  ∃ c j, v = VScalar (CStr c) ∧ position c (columns df) = Some j
         ∧ s = mkSeries c (column_at j df).
Proof.
  split.
  - destruct v as [mask | s' | c]; simpl.
    + by destruct (select_rows df mask).
    + destruct (mapM _ _); [|done]. by destruct (select_columns df l).
    + destruct c as [c | | |]; simpl; try done.
      destruct (position c (columns df)) as [j|] eqn:Hp; [|done].
      intros [= <-]. by exists c, j.
  - intros (c & j & -> & Hp & ->). simpl. by rewrite Hp.
Qed.

(** What the filter step wraps into a one-column view is the result of
    indexing the source by the evaluated value, when that result is a single
    column; this is the case exactly when the evaluated value is the label
    of a column of the source, and the view is then that column of the
    source. *)
Lemma filter_wraps_indexed_column
    (tv : TableView) (df : DataFrame) (text : string) (v : value) (s : Series) :
  filter_value tv = Some text →
  strip text ∉ columns df →
  py_eval text df = Ok v →
  getitem df v = Ok (ASeries s) →
  filter_frame py_eval tv df = Ok (to_frame s)
  ∧ ∃ c j, v = VScalar (CStr c) ∧ columns df !! j = Some c
           ∧ s = mkSeries c (column_at j df).
Proof.
  intros Hf Hn He Hg. split.
  - apply (filter_frame_ok tv df (to_frame s) text Hf).
    rewrite compile_filter_eval by done. rewrite He. py_step. by rewrite Hg.
  - apply getitem_series in Hg as (c & j & -> & Hp & ->).
    exists c, j. split; [done|]. split; [|done]. by apply position_Some in Hp as [? _].
Qed.

(** Indexing by a column of values one of which is no label of a column
    yields a lazy frame that cannot be computed: nothing is raised when it
    is built. *)
Lemma getitem_column_of_values (df : DataFrame) (s : Series) :
  Exists (fun it : Z * cell => ∀ l, label_of it.2 = Some l → l ∉ columns df)
    (items s) →
  getitem df (VSeries s) = Deferred KeyError.
Proof.
  intros Hex. cbn [getitem].
  destruct (mapM _ (items s)) as [labels|] eqn:Hl; [|done].
  assert (select_columns df labels = Raise KeyError) as ->; [|done].
  unfold select_columns.
  destruct (mapM (λ c, position c (columns df)) labels) as [js|] eqn:Hp; [|done].
  exfalso. apply mapM_Some in Hl. apply mapM_Some in Hp.
  apply Exists_exists in Hex as (it & Hin & Hno).
  apply list_elem_of_lookup in Hin as [i Hi].
  destruct (Forall2_lookup_l _ _ _ _ _ Hl Hi) as (l & Hli & Hlab).
  destruct (Forall2_lookup_l _ _ _ _ _ Hp Hli) as (j & _ & Hj).
  apply (Hno l Hlab). apply position_Some in Hj as [Hj _].
  by eapply list_elem_of_lookup_2.
Qed.

End FilterFacts.

Section FilterResults.
Import Py Frame Table Examples.
Context {frame_class : DataFrameClass}.

(** C2 (failing input): on a source without columns, a non-empty filter text
    whose evaluation raises makes the filter step itself raise TypeError: the
    fallback reduces an empty list of masks.  The error of the fallback is
    not recovered and reaches the caller of the filter step. *)
Theorem filter_fallback_without_columns
    (e : exn) (a : ascii) (s : string) (rs : list row) :
  filter_frame (eval_raises e)
    (view_with_filter (mkDataFrame [] rs) (String a s)) (mkDataFrame [] rs)
  = Raise TypeError.
Proof. reflexivity. Qed.

End FilterResults.

(** ** The column-fit step *)

Section ColumnFitFacts.
Import Py Frame Table.
Variable measure_column : Column → Z.

Lemma length_accumulate_from (acc : Z) (l : list Z) :
  length (accumulate_from acc l) = length l.
Proof. revert acc. induction l as [|x l IH]; intros acc; simpl; [done|]. by rewrite IH. Qed.


(** The running sums are the sums of the prefixes. *)
Lemma accumulate_from_lookup (acc : Z) (l : list Z) (i : nat) :
  i < length l →
  accumulate_from acc l !! i = Some (acc + foldr Z.add 0 (take (S i) l))%Z.
Proof.
  revert acc i. induction l as [|x l IH]; intros acc i Hi; simpl in *; [lia|].
  destruct i as [|i]; simpl.
  - f_equal. destruct l; simpl; lia.
  - rewrite IH by lia. f_equal. simpl. lia.
Qed.




(** An empty page has no column to measure, and every column is kept. *)
Lemma fit_columns_empty_page (width : Z) (column_names : list string) :
  fit_columns measure_column width column_names [] = (column_names, []).
Proof.
  unfold fit_columns. simpl.
  by destruct column_names.
Qed.




End ColumnFitFacts.

Section ColumnFitExamples.
Import Py Frame Table Examples.

(** Each cumulative width is the sum of the widths up to that column. *)
Lemma total_widths_cumulative (measure_column : Column → Z)
    (column_names : list string) (paged : list (list cell)) (i : nat) :
  i < length (total_widths measure_column column_names paged) →
  total_widths measure_column column_names paged !! i
  = Some (foldr Z.add 0%Z
            (take (S i)
               (map (fun c => (measure_column c + 1)%Z)
                  (zip_with mkColumn column_names (zip_star paged))))).
Proof.
  unfold total_widths, accumulate. rewrite length_accumulate_from, map_map.
  intros Hi. by rewrite accumulate_from_lookup.
Qed.


(** The heuristic admits one more column, which overflows the viewport: at
    width 40 the third column ends at 58, and 33 columns of slack remain
    after the second. *)
Example fit_columns_overflow :
  total_widths text_width
    [" "; "Name"; "A column header that takes fifty characters, yes!!"]
    (itertuples three_rows) = [2; 7; 58]%Z
  ∧ fst (fit_columns text_width 40
           [" "; "Name"; "A column header that takes fifty characters, yes!!"]
           (itertuples three_rows))
    = [" "; "Name"; "A column header that takes fifty characters, yes!!"]
  ∧ fst (fit_columns text_width 36
           [" "; "Name"; "A column header that takes fifty characters, yes!!"]
           (itertuples three_rows))
    = [" "; "Name"].
Proof. repeat split. Qed.


End ColumnFitExamples.

(** ** Rendering *)

Section RenderFacts.
Import Py Frame Table.
Context {frame_class : DataFrameClass}.
Variable py_eval : string → DataFrame → result value.
Variable measure_column : ConsoleOptions → Column → Z.

Lemma filter_value_set_last_page_size (tv : TableView) (n : Z) :
  filter_value (set_last_page_size tv n) = filter_value tv.
Proof. done. Qed.

Lemma filter_frame_filter_value (tv tv' : TableView) (d : DataFrame) :
  filter_value tv' = filter_value tv →
  filter_frame py_eval tv' d = filter_frame py_eval tv d.
Proof. intros H. unfold filter_frame. by rewrite H. Qed.

Lemma nrows_iloc_columns_from (d : DataFrame) (start : Z) :
  nrows (iloc_columns_from d start) = nrows d.
Proof. unfold nrows, len, iloc_columns_from. simpl. by rewrite length_map. Qed.

(** Past the last element [islice] yields nothing. *)
Lemma islice_past_the_end {A} (it : list A) (start stop : Z) :
  (0 ≤ start)%Z → (0 ≤ stop)%Z → (len it ≤ start)%Z →
  islice it start stop = Ok [].
Proof.
  intros H1 H2 H3. unfold islice, len in *.
  destruct (Z.ltb_spec start 0); [lia|]. destruct (Z.ltb_spec stop 0); [lia|].
  simpl. rewrite drop_ge by lia. by rewrite take_nil.
Qed.

(** A rendering records the body height as the page size. *)
Lemma render_last_page_size (options : ConsoleOptions) (tv : TableView) :
  _last_page_size (fst (render py_eval measure_column options tv))
  = body_height options tv.
Proof. done. Qed.

(** The rendering, spelled out on the view it is given. *)
Lemma render_result (options : ConsoleOptions) (tv : TableView) :
  snd (render py_eval measure_column options tv)
  = match filter_frame py_eval tv (df tv) with
    | Ok filtered =>
        paged ← islice
                  (itertuples (iloc_columns_from filtered (column_startat tv)))
                  (startat tv) (startat tv + body_height options tv);
        Ok (mkFrame (filter_shown tv)
              (fst (fit_columns (measure_column options) (max_width options - 2)
                      (" " :: columns (iloc_columns_from filtered (column_startat tv)))
                      paged))
              (snd (fit_columns (measure_column options) (max_width options - 2)
                      (" " :: columns (iloc_columns_from filtered (column_startat tv)))
                      paged))
              (nrows (iloc_columns_from filtered (column_startat tv))))
    | Raise e => Raise e
    | Deferred e =>
        _ ← islice (@nil (list cell)) (startat tv)
              (startat tv + body_height options tv);
        Raise e
    end.
Proof.
  unfold render. cbn [fst snd].
  set (h := body_height options tv).
  change (df (set_last_page_size tv h)) with (df tv).
  change (startat (set_last_page_size tv h)) with (startat tv).
  change (column_startat (set_last_page_size tv h)) with (column_startat tv).
  rewrite (filter_frame_filter_value tv (set_last_page_size tv h) (df tv))
    by apply filter_value_set_last_page_size.
  destruct (filter_frame py_eval tv (df tv)) as [filtered|e|e]; [|done|done].
  destruct (islice _ _ _) as [paged|e|e]; [|done|done]. py_step.
  by destruct (fit_columns _ _ _ _).
Qed.

(** A row offset at or past the end of the filtered view gives an empty
    page, with the full header and the row count of the filtered view. *)
Lemma render_past_the_end (options : ConsoleOptions) (tv : TableView)
    (filtered : DataFrame) :
  filter_frame py_eval tv (df tv) = Ok filtered →
  (0 ≤ startat tv)%Z →
  (0 ≤ startat tv + body_height options tv)%Z →
  (nrows filtered ≤ startat tv)%Z →
  ∃ frame,
    snd (render py_eval measure_column options tv) = Ok frame
    ∧ frame_rows frame = []
    ∧ frame_columns frame
      = " " :: columns (iloc_columns_from filtered (column_startat tv))
    ∧ frame_total frame = nrows filtered.
Proof.
  intros Hf H0 Hh Hn. rewrite render_result, Hf.
  rewrite islice_past_the_end; [| done | done |].
  - py_step. rewrite fit_columns_empty_page.
    eexists. split; [done|]. simpl. by rewrite nrows_iloc_columns_from.
  - unfold itertuples, len. rewrite length_map.
    pose proof (nrows_iloc_columns_from filtered (column_startat tv)) as Hr.
    unfold nrows, len in Hr. unfold nrows, len in Hn. lia.
Qed.

(** With a negative row offset the rendering fails: [islice] refuses it. *)
Lemma render_negative_startat (options : ConsoleOptions) (tv : TableView) :
  filter_value tv = None → (startat tv < 0)%Z →
  snd (render py_eval measure_column options tv) = Raise ValueError.
Proof.
  intros Hf Hs.
  rewrite render_result, (filter_frame_no_filter py_eval tv (df tv) Hf).
  by rewrite islice_negative_start.
Qed.

(** A lazy frame that cannot be computed is returned by the filter step
    and raises when the rendering reads its rows: once the bounds have
    passed the check of [islice], the exception escapes the rendering. *)
Lemma render_deferred (options : ConsoleOptions) (tv : TableView) (e : exn) :
  filter_frame py_eval tv (df tv) = Deferred e →
  (0 ≤ startat tv)%Z →
  (0 ≤ startat tv + body_height options tv)%Z →
  snd (render py_eval measure_column options tv) = Raise e.
Proof.
  intros Hf H0 H1. rewrite render_result, Hf. unfold islice.
  destruct (Z.ltb_spec (startat tv) 0); [lia|].
  by destruct (Z.ltb_spec (startat tv + body_height options tv) 0); [lia|].
Qed.

(** What the filter step raises escapes the rendering. *)
Lemma render_raise (options : ConsoleOptions) (tv : TableView) (e : exn) :
  filter_frame py_eval tv (df tv) = Raise e →
  snd (render py_eval measure_column options tv) = Raise e.
Proof. intros Hf. by rewrite render_result, Hf. Qed.

(** On a source without rows, the first offset stored by the setter makes
    the next rendering fail. *)
Lemma render_after_setter_on_empty_source (options : ConsoleOptions)
    (cols : list string) (s : Z) :
  snd (render py_eval measure_column options
         (set_startat (init (mkDataFrame cols [])) s))
  = Raise ValueError.
Proof.
  apply render_negative_startat; [done|].
  rewrite set_startat_stored. unfold nrows, len. simpl. lia.
Qed.

End RenderFacts.

Section RenderResults.
Import Py Frame Table Examples.

(** C10: the two setters clamp against the row count and the column count
    of the source frame [df], and the filter editor plays no part in what
    they store.  So, with a filter active, the stored row offset can be at or
    past the row count of the filtered view: on the three-row source, with
    the filter text [Bob] (which does not evaluate and selects one row by
    substring search), offset 2 is stored as 2; rendering then yields an
    empty page and reports one row in total.  In general, a rendering whose
    row offset is at or past the end of the filtered view yields an empty
    page. *)
Theorem setters_clamp_against_source :
  (∀ tv s, startat (set_startat tv s) = Z.min (nrows (df tv) - 1) (Z.max 0 s))
  ∧ (∀ tv c, column_startat (set_column_startat tv c)
             = Z.min (len (columns (df tv)) - 1) (Z.max 0 c))
  ∧ (∀ tv cap s c,
       startat (set_startat (set_filter tv cap) s) = startat (set_startat tv s)
       ∧ column_startat (set_column_startat (set_filter tv cap) c)
         = column_startat (set_column_startat tv c))
  ∧ (∀ measure_column,
       let tv := set_startat (view_with_filter three_rows "Bob") 2 in
       startat tv = 2%Z
       ∧ filter_frame (eval_raises NameError) tv (df tv)
         = Ok (mkDataFrame ["Name"; "Age"] [(1, [CStr "Bob"; CInt 25])]%Z)
       ∧ snd (render (eval_raises NameError) measure_column (mkOptions 30 80) tv)
         = Ok (mkFrame true [" "; "Name"; "Age"] [] 1))
  ∧ (∀ py_eval measure_column options tv filtered,
       filter_frame py_eval tv (df tv) = Ok filtered →
       (0 ≤ startat tv)%Z →
       (0 ≤ startat tv + body_height options tv)%Z →
       (nrows filtered ≤ startat tv)%Z →
       ∃ frame,
         snd (render py_eval measure_column options tv) = Ok frame
         ∧ frame_rows frame = []
         ∧ frame_total frame = nrows filtered).
Proof.
  split; [done|]. split; [done|]. split; [done|]. split.
  - intros measure_column tv. split; [reflexivity|]. split; [reflexivity|].
    unfold render. cbn. reflexivity.
  - intros py_eval measure_column options tv filtered Hf H0 Hh Hn.
    destruct (render_past_the_end py_eval measure_column options tv filtered
                Hf H0 Hh Hn) as (frame & Hr & Hrows & _ & Htotal).
    by exists frame.
Qed.

End RenderResults.

(** ** Filter results that escape the rendering *)

Section FilterEscapes.
Import Py Frame Table.
Context {frame_class : DataFrameClass}.
Variable py_eval : string → DataFrame → result value.
Variable measure_column : ConsoleOptions → Column → Z.

(** C5 (failing input): a filter text that, once trimmed, is the name of a
    column and also the name of an attribute of the DataFrame class (such as
    [size]) does not compile to that column: attribute access yields the
    attribute of the class.  When that attribute has neither [to_frame] nor
    [map], the wrapping fails inside the [try], the fallback applies [map]
    to the same attribute, and the exception of the fallback escapes the
    filter step and the rendering: no one-column view is returned. *)
Theorem filter_by_attribute_named_column
    (options : ConsoleOptions) (tv : TableView) (text : string)
    (pre post : list string) (e1 e2 : exn) :
  filter_value tv = Some text →
  columns (df tv) = pre ++ strip text :: post →
  Forall (fun c => is_attribute c = false) pre →
  is_attribute (strip text) = true →
  attribute_to_frame (df tv) (strip text) = Raise e1 →
  attribute_contains (df tv) (strip text) text = Raise e2 →
  compile_filter py_eval (Some text) (df tv) = Ok (AMember (strip text))
  ∧ filter_frame py_eval tv (df tv) = Raise e2
  ∧ snd (render py_eval measure_column options tv) = Raise e2.
Proof.
  intros Hf Hcols Hpre Ha Hto Hmap.
  assert (strip text ∈ columns (df tv)) as Hin.
  { rewrite Hcols. apply elem_of_app. right. apply list_elem_of_here. }
  pose proof (compile_filter_attribute py_eval (df tv) text Hin Ha) as Hc.
  assert (filter_frame py_eval tv (df tv) = Raise e2) as Hfilter.
  { rewrite (filter_frame_fallback py_eval tv (df tv) text e1 Hf)
      by (rewrite Hc; py_step; exact Hto).
    unfold substring_search. rewrite Hcols.
    rewrite (column_masks_attribute (df tv) text (strip text) pre post e2);
      [done | | done | done].
    apply Forall_forall. intros c Hc'. split.
    - rewrite Hcols. apply elem_of_app. by left.
    - by apply (proj1 (Forall_forall _ _) Hpre). }
  split; [exact Hc|]. split; [exact Hfilter|].
  by apply render_raise.
Qed.

(** C4 (failing input): a filter text (no column name) whose evaluation
    yields a column of values, one of which at least is no label of a
    column of the source (a column of numbers, say).  The source is indexed
    by that column: the result is a lazy frame, so nothing is wrapped and
    nothing is raised inside the [try]; the filter step returns it.  Its
    rows cannot be computed, and the KeyError escapes the rendering when
    they are read: the output is no one-column view of the evaluated
    column. *)
Theorem evaluated_column_escapes_the_rendering
    (options : ConsoleOptions) (tv : TableView) (text : string) (s : Series) :
  filter_value tv = Some text →
  strip text ∉ columns (df tv) →
  py_eval text (df tv) = Ok (VSeries s) →
  Exists (fun it : Z * cell => ∀ l, label_of it.2 = Some l → l ∉ columns (df tv))
    (items s) →
  (0 ≤ startat tv)%Z →
  (0 ≤ startat tv + body_height options tv)%Z →
  getitem (df tv) (VSeries s) = Deferred KeyError
  ∧ filter_frame py_eval tv (df tv) = Deferred KeyError
  ∧ filter_frame py_eval tv (df tv) ≠ Ok (to_frame s)
  ∧ snd (render py_eval measure_column options tv) = Raise KeyError.
Proof.
  intros Hf Hn He Hex H0 H1.
  pose proof (getitem_column_of_values (df tv) s Hex) as Hg.
  assert (filter_frame py_eval tv (df tv) = Deferred KeyError) as Hfilter.
  { apply (filter_frame_deferred py_eval tv (df tv) text _ Hf).
    rewrite compile_filter_eval by done. rewrite He. py_step. by rewrite Hg. }
  split; [exact Hg|]. split; [exact Hfilter|]. split; [by rewrite Hfilter|].
  by apply render_deferred.
Qed.

(** X25: a filter text that, once trimmed, is the name of a column which is
    not the name of an attribute of the DataFrame class compiles to that
    column of the source, and the filter step returns it as a one-column
    view: its only column carries that name, and its rows are the rows of
    the source, each reduced to its cell in that column. *)
Theorem filter_by_plain_column_name
    (tv : TableView) (df : DataFrame) (text : string) :
  filter_value tv = Some text →
  strip text ∈ columns df →
  is_attribute (strip text) = false →
  ∃ j,
    columns df !! j = Some (strip text)
    ∧ compile_filter py_eval (Some text) df
      = Ok (ASeries (mkSeries (strip text) (column_at j df)))
    ∧ filter_frame py_eval tv df
      = Ok (mkDataFrame [strip text]
              (map (fun r : row => (r.1, [cell_at j r])) (rows df))).
Proof.
  intros Hf Hin Ha.
  destruct (compile_filter_column py_eval df text Hin Ha) as [j [Hj Hc]].
  exists j. split; [by apply position_Some in Hj as [? _]|]. split; [done|].
  rewrite (filter_frame_ok py_eval tv df
             (to_frame (mkSeries (strip text) (column_at j df))) text Hf)
    by (by rewrite Hc).
  unfold to_frame, column_at. simpl. by rewrite map_map.
Qed.

End FilterEscapes.

Section FilterEscapesExamples.
Import Py Frame Table Examples.

Lemma filter_by_attribute_named_column_witness :
  filter_value (view_with_filter sized_rows " size ") = Some " size "
  ∧ columns (df (view_with_filter sized_rows " size ")) = ["item"] ++ strip " size " :: []
  ∧ Forall (fun c => is_attribute c = false) ["item"]
  ∧ is_attribute (strip " size ") = true
  ∧ attribute_to_frame (df (view_with_filter sized_rows " size ")) (strip " size ")
    = Raise AttributeError
  ∧ attribute_contains (df (view_with_filter sized_rows " size ")) (strip " size ")
      " size "
    = Raise AttributeError
  ∧ compile_filter (eval_raises NameError) (Some " size ")
      (df (view_with_filter sized_rows " size "))
    = Ok (AMember "size")
  ∧ filter_frame (eval_raises NameError) (view_with_filter sized_rows " size ")
      (df (view_with_filter sized_rows " size "))
    = Raise AttributeError
  ∧ snd (render (eval_raises NameError) text_measure (mkOptions 30 80)
           (view_with_filter sized_rows " size "))
    = Raise AttributeError.
Proof.
  assert (Forall (fun c => is_attribute c = false) ["item"]) as Hpre
    by (repeat constructor).
  split; [reflexivity|]. split; [reflexivity|]. split; [exact Hpre|].
  split; [reflexivity|]. split; [reflexivity|]. split; [reflexivity|].
  exact (filter_by_attribute_named_column (eval_raises NameError) text_measure
           (mkOptions 30 80) (view_with_filter sized_rows " size ") " size "
           ["item"] [] AttributeError AttributeError
           eq_refl eq_refl Hpre eq_refl eq_refl eq_refl).
Defined.

Lemma evaluated_column_escapes_the_rendering_witness :
  let tv := view_with_filter three_rows "Age * 2" in
  filter_value tv = Some "Age * 2"
  ∧ (strip "Age * 2" ∉ columns (df tv))
  ∧ eval_doubling "Age * 2" (df tv) = Ok (VSeries doubled_ages)
  ∧ Exists (fun it : Z * cell => ∀ l, label_of it.2 = Some l → l ∉ columns (df tv))
      (items doubled_ages)
  ∧ (0 ≤ startat tv)%Z
  ∧ (0 ≤ startat tv + body_height (mkOptions 30 80) tv)%Z
  ∧ getitem (df tv) (VSeries doubled_ages) = Deferred KeyError
  ∧ filter_frame eval_doubling tv (df tv) = Deferred KeyError
  ∧ filter_frame eval_doubling tv (df tv) ≠ Ok (to_frame doubled_ages)
  ∧ snd (render eval_doubling text_measure (mkOptions 30 80) tv) = Raise KeyError.
Proof.
  intros tv.
  assert (strip "Age * 2" ∉ columns (df tv)) as Hn
    by (apply (bool_decide_unpack _); by vm_compute).
  assert (Exists (fun it : Z * cell =>
                    ∀ l, label_of it.2 = Some l → l ∉ columns (df tv))
            (items doubled_ages)) as Hex
    by (apply Exists_cons_hd; intros l Hl; discriminate Hl).
  assert (0 ≤ startat tv)%Z as H0 by (vm_compute; discriminate).
  assert (0 ≤ startat tv + body_height (mkOptions 30 80) tv)%Z as H1
    by (vm_compute; discriminate).
  split; [reflexivity|]. split; [exact Hn|]. split; [reflexivity|].
  split; [exact Hex|]. split; [exact H0|]. split; [exact H1|].
  exact (evaluated_column_escapes_the_rendering eval_doubling text_measure
           (mkOptions 30 80) tv "Age * 2" doubled_ages
           eq_refl Hn eq_refl Hex H0 H1).
Defined.

Lemma filter_by_plain_column_name_witness :
  filter_value (view_with_filter three_rows "  Age ") = Some "  Age "
  ∧ strip "  Age " ∈ columns three_rows
  ∧ is_attribute (strip "  Age ") = false
  ∧ ∃ j,
      columns three_rows !! j = Some (strip "  Age ")
      ∧ compile_filter (eval_raises NameError) (Some "  Age ") three_rows
        = Ok (ASeries (mkSeries (strip "  Age ") (column_at j three_rows)))
      ∧ filter_frame (eval_raises NameError) (view_with_filter three_rows "  Age ")
          three_rows
        = Ok (mkDataFrame [strip "  Age "]
                (map (fun r : row => (r.1, [cell_at j r])) (rows three_rows))).
Proof.
  assert (strip "  Age " ∈ columns three_rows) as Hin.
  { vm_compute. apply list_elem_of_further, list_elem_of_here. }
  split; [reflexivity|]. split; [exact Hin|]. split; [reflexivity|].
  exact (filter_by_plain_column_name (eval_raises NameError)
           (view_with_filter three_rows "  Age ") three_rows "  Age "
           eq_refl Hin eq_refl).
Defined.

(** The view that the column name gives on the three-row source. *)
Example filter_by_column_name_example :
  filter_frame (eval_raises NameError) (view_with_filter three_rows "  Age ") three_rows
  = Ok (mkDataFrame ["Age"] [(0, [CInt 31]); (1, [CInt 25]); (2, [CInt 47])]%Z).
Proof. reflexivity. Qed.

(** With a column named [count] the substring search for a text that is no
    column name fails as well: the fallback applies [map] to the method
    [count] of the class. *)
Example search_with_attribute_named_column :
  filter_frame (eval_raises NameError)
    (view_with_filter (mkDataFrame ["count"] [(0, [CInt 3])]%Z) "3")
    (mkDataFrame ["count"] [(0, [CInt 3])]%Z)
  = Raise AttributeError.
Proof. reflexivity. Qed.

End FilterEscapesExamples.

(** ** The keyboard handler *)

Section HandlerFacts.
Import Py Frame Ui.
Variables commands table_commands : gmap string Command.

Lemma deref_assign (ui : Interface) (r : editor_ref) (cap : Editor.CaptureKeyboardInput) :
  deref (assign ui r cap) r = cap.
Proof. by destruct r. Qed.

Lemma calls_refresh (ui : Interface) : calls (refresh ui) = calls ui ++ [Refresh].
Proof. done. Qed.

Lemma editing_refresh (ui : Interface) : editing (refresh ui) = editing ui.
Proof. done. Qed.

Lemma deref_refresh (ui : Interface) (r : editor_ref) :
  deref (refresh ui) r = deref ui r.
Proof. by destruct r. Qed.

Lemma calls_record (ui : Interface) (c : call) : calls (record ui c) = calls ui ++ [c].
Proof. done. Qed.

Lemma editing_record (ui : Interface) (c : call) : editing (record ui c) = editing ui.
Proof. done. Qed.

Lemma calls_assign (ui : Interface) (r : editor_ref) (cap : Editor.CaptureKeyboardInput) :
  calls (assign ui r cap) = calls ui.
Proof. by destruct r. Qed.

Lemma editing_assign (ui : Interface) (r : editor_ref) (cap : Editor.CaptureKeyboardInput) :
  editing (assign ui r cap) = editing ui.
Proof. by destruct r. Qed.

Lemma count_call_app (c : call) (l1 l2 : list call) :
  count_call c (l1 ++ l2) = count_call c l1 + count_call c l2.
Proof. unfold count_call. by rewrite filter_app, length_app. Qed.

Lemma end_editing_calls (ui : Interface) (r : editor_ref) :
  calls (end_editing ui r) = calls ui ++ [Finalize].
Proof. by destruct r. Qed.

Lemma end_editing_editing (ui : Interface) (r : editor_ref) :
  editing (end_editing ui r) = None.
Proof. by destruct r. Qed.

Lemma end_editing_state (ui : Interface) (r : editor_ref) :
  Editor.state (deref (end_editing ui r) r)
  = Editor.set_editing
      (Editor.finalize (deref ui r) (Editor.state (deref ui r))) false.
Proof. by destruct r. Qed.

(** The three ways a character is handled while editing: cancel, a
    character after which the update callback stops the editing, and a
    character after which it goes on. *)
Lemma handle_editing_cases (ui : Interface) (r : editor_ref) (ch : string) :
  let cap := deref ui r in
  let buffer := Editor.value (Editor.edit_buffer (Editor.state cap) ch) in
  let sent := record (assign ui r (fst (Editor.send_character cap ch))) (Update buffer) in
  (ch = Editor.ESCAPE_KEY
   ∧ handle_editing ui r ch = (refresh (end_editing ui r), true))
  ∨ (ch ≠ Editor.ESCAPE_KEY
     ∧ snd (Editor.send_character cap ch) = false
     ∧ handle_editing ui r ch = (refresh (end_editing sent r), true))
  ∨ (ch ≠ Editor.ESCAPE_KEY
     ∧ snd (Editor.send_character cap ch) = true
     ∧ handle_editing ui r ch = (refresh sent, true)).
Proof.
  intros cap buffer sent. subst sent buffer cap. unfold handle_editing.
  destruct (String.eqb_spec ch Editor.ESCAPE_KEY) as [-> | Hne].
  - left. by split.
  - right. destruct (Editor.send_character (deref ui r) ch) as [cap' keep] eqn:Hs.
    destruct keep; simpl; [right | left]; by repeat split.
Qed.

(** What one character does to the log and to the editing slot. *)
Lemma handle_editing_step (ui : Interface) (r : editor_ref) (ch : string) :
  editing ui = Some r →
  let out := handle_editing ui r ch in
  snd out = true
  ∧ ((editing (fst out) = None
      ∧ count_call Finalize (calls (fst out)) = count_call Finalize (calls ui) + 1)
     ∨ (editing (fst out) = Some r
        ∧ count_call Finalize (calls (fst out)) = count_call Finalize (calls ui))).
Proof.
  intros He out. subst out.
  destruct (handle_editing_cases ui r ch) as [[_ ->] | [(_ & _ & ->) | (_ & _ & ->)]];
    cbn [fst snd]; (split; [done|]).
  - left. rewrite editing_refresh, end_editing_editing. split; [done|].
    rewrite calls_refresh, end_editing_calls, !count_call_app.
    change (count_call Finalize [Finalize]) with 1.
    change (count_call Finalize [Refresh]) with 0. lia.
  - left. rewrite editing_refresh, end_editing_editing. split; [done|].
    rewrite calls_refresh, end_editing_calls, calls_record, calls_assign,
      !count_call_app.
    change (count_call Finalize [Finalize]) with 1.
    change (count_call Finalize [Refresh]) with 0.
    change (count_call Finalize [Update _]) with 0. lia.
  - right. rewrite editing_refresh, editing_record, editing_assign. split; [done|].
    rewrite calls_refresh, calls_record, calls_assign, !count_call_app.
    change (count_call Finalize [Refresh]) with 0.
    change (count_call Finalize [Update _]) with 0. lia.
Qed.

Lemma keyboard_handler_editing (ui : Interface) (r : editor_ref) (ch : string) :
  editing ui = Some r →
  keyboard_handler commands table_commands ui ch = handle_editing ui r ch.
Proof. intros He. unfold keyboard_handler. by rewrite He. Qed.

(** Once no editor captures the input the session is over. *)
Lemma feed_session_ended (ui : Interface) (chars : list string) :
  editing ui = None → feed_session commands table_commands ui chars = (ui, []).
Proof. intros He. destruct chars; simpl; [done|]. by rewrite He. Qed.

(** C7: while an editor captures the input, (1) the cancel character ends
    the editing at once: the update callback is not called (the log gains
    the finalize call and the refresh only), the editor is finalized and
    marked as not editing, and no editor captures the input afterwards;
    (2) the handler returns [true] for every character; (3) the editing ends
    exactly on the cancel character or on a character after which the update
    callback answers [false]; (4) over the characters of a session, every
    value returned is [true], and the finalize callback has been called
    once if the session ended and not at all if it goes on. *)
Theorem editing_session (ui : Interface) (r : editor_ref) :
  editing ui = Some r →
  (let out := keyboard_handler commands table_commands ui Editor.ESCAPE_KEY in
   snd out = true
   ∧ editing (fst out) = None
   ∧ calls (fst out) = calls ui ++ [Finalize; Refresh]
   ∧ Editor.state (deref (fst out) r)
     = Editor.set_editing
         (Editor.finalize (deref ui r) (Editor.state (deref ui r))) false)
  ∧ (∀ ch, snd (keyboard_handler commands table_commands ui ch) = true)
  ∧ (∀ ch, editing (fst (keyboard_handler commands table_commands ui ch)) = None
           ↔ ch = Editor.ESCAPE_KEY
             ∨ snd (Editor.send_character (deref ui r) ch) = false)
  ∧ (∀ chars,
       let out := feed_session commands table_commands ui chars in
       Forall (fun b => b = true) (snd out)
       ∧ count_call Finalize (calls (fst out))
         = count_call Finalize (calls ui)
           + match editing (fst out) with None => 1 | Some _ => 0 end).
Proof.
  intros He. split; [|split; [|split]].
  - unfold keyboard_handler. rewrite He.
    destruct (handle_editing_cases ui r Editor.ESCAPE_KEY)
      as [[_ ->] | [(Hne & _) | (Hne & _)]]; [|done|done].
    cbn [fst snd]. split; [done|].
    rewrite editing_refresh, end_editing_editing. split; [done|]. split.
    + rewrite calls_refresh, end_editing_calls. by rewrite <- app_assoc.
    + by rewrite deref_refresh, end_editing_state.
  - intros ch. unfold keyboard_handler. rewrite He.
    by destruct (handle_editing_step ui r ch He) as [? _].
  - intros ch. unfold keyboard_handler. rewrite He.
    destruct (handle_editing_cases ui r ch)
      as [[-> ->] | [(Hne & Hs & ->) | (Hne & Hs & ->)]]; cbn [fst].
    + rewrite editing_refresh, end_editing_editing. split; [by left | done].
    + rewrite editing_refresh, end_editing_editing. split; [by right | done].
    + rewrite editing_refresh, editing_record, editing_assign, He.
      split; [done|]. intros [? | ?]; [done | congruence].
  - intros chars. revert ui r He.
    induction chars as [|ch chars IH]; intros ui r He; simpl.
    + rewrite He. split; [constructor | simpl; lia].
    + rewrite He, (keyboard_handler_editing ui r ch He).
      destruct (handle_editing_step ui r ch He) as [Ht Hcases].
      destruct (handle_editing ui r ch) as [ui' b]. simpl in Ht, Hcases. subst b.
      destruct Hcases as [[Hnone Hcount] | [Hsome Hcount]].
      * rewrite (feed_session_ended ui' chars Hnone). cbn [fst snd].
        rewrite Hnone. split; [by repeat constructor | lia].
      * specialize (IH ui' r Hsome).
        destruct (feed_session commands table_commands ui' chars) as [ui'' bs].
        simpl in *. destruct IH as [Hall Hc].
        split; [by constructor | lia].
Qed.

(** C9: while no editor captures the input, (1) in table mode a key of the
    table commands runs that command; (2) otherwise a key of the global
    commands runs that command; (3) a key of neither changes nothing and the
    handler returns [true]; a command that runs yields the state and the
    value that the handler returns. *)
Theorem keyboard_handler_dispatch (ui : Interface) (ch : string) :
  editing ui = None →
  (∀ c, mode ui = TABLE → table_commands !! ch = Some c →
        keyboard_handler commands table_commands ui ch = fn c ui)
  ∧ (∀ c, mode ui ≠ TABLE ∨ table_commands !! ch = None →
          commands !! ch = Some c →
          keyboard_handler commands table_commands ui ch = fn c ui)
  ∧ (mode ui ≠ TABLE ∨ table_commands !! ch = None →
     commands !! ch = None →
     keyboard_handler commands table_commands ui ch = (ui, true)).
Proof.
  intros He. unfold keyboard_handler. rewrite He.
  split; [|split].
  - intros c Hm Hc. destruct (decide _) as [_|?]; [|done]. by rewrite Hc.
  - intros c Hno Hc. destruct (decide _) as [Hm|_].
    + destruct Hno as [?| ->]; [done|]. by rewrite Hc.
    + by rewrite Hc.
  - intros Hno Hc. destruct (decide _) as [Hm|_].
    + destruct Hno as [?| ->]; [done|]. by rewrite Hc.
    + by rewrite Hc.
Qed.

End HandlerFacts.

Section HandlerExamples.
Import Py Frame Ui Examples.

(** The decorators register every command: no key is registered twice. *)
Lemma commands_registered :
  is_ok register_commands = true ∧ is_ok register_table_commands = true.
Proof. split; reflexivity. Qed.

(** Registering a key a second time raises KeyError. *)
Lemma add_command_duplicate (d : gmap string Command) (k short doc : string)
    (f : Interface → Interface * bool) (c : Command) :
  d !! k = Some c → add_command d k short f doc = Raise KeyError.
Proof. intros H. unfold add_command. by rewrite H. Qed.

Lemma editing_session_witness :
  editing filter_prompt_ui = Some TableFilter
  ∧ snd (keyboard_handler the_commands the_table_commands filter_prompt_ui
           Editor.ESCAPE_KEY) = true
  ∧ calls (fst (keyboard_handler the_commands the_table_commands filter_prompt_ui
                  Editor.ESCAPE_KEY))
    = calls filter_prompt_ui ++ [Finalize; Refresh]
  ∧ Forall (fun b => b = true)
      (snd (feed_session the_commands the_table_commands filter_prompt_ui
              ["B"; "o"; "b"; Editor.NEWLINE; "q"])).
Proof.
  assert (editing filter_prompt_ui = Some TableFilter) as He by reflexivity.
  destruct (editing_session the_commands the_table_commands
              filter_prompt_ui TableFilter He)
    as ((Hret & _ & Hcalls & _) & _ & _ & Hsession).
  destruct (Hsession ["B"; "o"; "b"; Editor.NEWLINE; "q"]) as [Hall _].
  exact (conj He (conj Hret (conj Hcalls Hall))).
Defined.

(** Typing [Bob] and a newline at the filter prompt: four characters are
    handled (the [q] after the end of the session is not read by it), each
    with the answer [true]; finalize is called once; the value of the filter
    of the table view is [Bob], and no editor captures the input. *)
Example typing_a_filter :
  let out := feed_session the_commands the_table_commands filter_prompt_ui
               ["B"; "o"; "b"; Editor.NEWLINE; "q"] in
  snd out = [true; true; true; true]
  ∧ count_call Finalize (calls (fst out)) = 1
  ∧ Table.filter_value (table (fst out)) = Some "Bob"
  ∧ editing (fst out) = None.
Proof. repeat split. Qed.

(** Cancelling in the middle of the buffer: the buffer stays as typed,
    finalize is called once and the update callback is called once, for the
    character typed before. *)
Example cancelling_a_filter :
  let out := feed_session the_commands the_table_commands filter_prompt_ui
               ["B"; Editor.ESCAPE_KEY] in
  snd out = [true; true]
  ∧ calls (fst out) = [Refresh; Update "B"; Refresh; Finalize; Refresh]
  ∧ Table.filter_value (table (fst out)) = Some "B"
  ∧ editing (fst out) = None.
Proof. repeat split. Qed.

Lemma keyboard_handler_dispatch_witness :
  editing (init three_rows) = None
  ∧ keyboard_handler the_commands the_table_commands (init three_rows) "q"
    = (init three_rows, false)
  ∧ keyboard_handler the_commands the_table_commands (init three_rows) "x"
    = (init three_rows, true).
Proof.
  assert (editing (init three_rows) = None) as He by reflexivity.
  destruct (keyboard_handler_dispatch the_commands the_table_commands
              (init three_rows) "q" He) as (_ & Hglobal & _).
  destruct (keyboard_handler_dispatch the_commands the_table_commands
              (init three_rows) "x" He) as (_ & _ & Hnone).
  split; [exact He|]. split.
  - exact (Hglobal (mkCommand "q" "(q)uit" quit "Quit")
             (or_intror eq_refl) eq_refl).
  - exact (Hnone (or_intror eq_refl) eq_refl).
Defined.

(** A table command shadows nothing here, and runs only in table mode: [j]
    scrolls in table mode and is ignored in summary mode. *)
Example table_scope_needs_table_mode :
  snd (keyboard_handler the_commands the_table_commands
         (set_mode (init three_rows) SUMMARY) "j") = true
  ∧ fst (keyboard_handler the_commands the_table_commands
           (set_mode (init three_rows) SUMMARY) "j")
    = set_mode (init three_rows) SUMMARY
  ∧ calls (fst (keyboard_handler the_commands the_table_commands
                  (init three_rows) "j")) = [Refresh].
Proof. repeat split. Qed.

(** Go to bottom with a page of 20 rows on 55 rows: the offset is 35. *)
Example go_to_bottom_of_55_rows :
  Table.startat
    (table (fst (go_to_bottom
       (set_table (init fifty_five_rows)
          (Table.set_last_page_size (Table.init fifty_five_rows) 20)))))
  = 35%Z.
Proof. reflexivity. Qed.

End HandlerExamples.

(* ===================================================================== *)
(** * Further properties *)
(* ===================================================================== *)

(** ** Scrolling, continued *)

Section ScrollMore.
Import Py Frame Table Examples.
Context {frame_class : DataFrameClass}.

Lemma length_slice_from {A} (l : list A) (start : Z) :
  (0 ≤ start ≤ len l)%Z → len (slice_from l start) = (len l - start)%Z.
Proof.
  intros H. unfold slice_from, len in *.
  destruct (Z.ltb_spec start 0); [lia|]. rewrite length_drop. lia.
Qed.

(** X2: on a source with at least one column, whatever column offset is
    requested, the stored offset is the position of a column of the source.
    While no filter text is set, the filter step of the next rendering
    returns the source itself, and the column slice that the rendering
    takes of it at the stored offset keeps at least one column. *)
Theorem set_column_startat_in_range
    (py_eval : string → DataFrame → result value) (tv : TableView) (c : Z) :
  (1 ≤ len (columns (df tv)))%Z →
  filter_value tv = None →
  (0 ≤ column_startat (set_column_startat tv c) ≤ len (columns (df tv)) - 1)%Z
  ∧ filter_frame py_eval (set_column_startat tv c) (df (set_column_startat tv c))
    = Ok (df tv)
  ∧ (1 ≤ len (columns (iloc_columns_from (df tv)
                         (column_startat (set_column_startat tv c)))))%Z.
Proof.
  intros H Hf. rewrite set_column_startat_stored.
  split; [lia|]. split; [by apply filter_frame_no_filter|].
  unfold iloc_columns_from. cbn [columns].
  rewrite length_slice_from; lia.
Qed.

(** X3: on a source with rows, from a row offset within the source and with
    a non-negative page size, page-down never moves up and never passes the
    last row, and stops at the last row when a full page would pass it;
    page-up never moves down and never passes the first row, and stops at
    the first row when a full page would pass it. *)
Theorem paging_stays_within_rows (tv : TableView) :
  (1 ≤ nrows (df tv))%Z →
  (0 ≤ _last_page_size tv)%Z →
  (0 ≤ startat tv ≤ nrows (df tv) - 1)%Z →
  (startat tv ≤ startat (increment_page tv) ≤ nrows (df tv) - 1)%Z
  ∧ (0 ≤ startat (decrement_page tv) ≤ startat tv)%Z
  ∧ startat (increment_page tv)
    = Z.min (nrows (df tv) - 1) (startat tv + _last_page_size tv)
  ∧ startat (decrement_page tv) = Z.max 0 (startat tv - _last_page_size tv).
Proof.
  intros Hn Hp Hs. unfold increment_page, decrement_page.
  rewrite !set_startat_stored. lia.
Qed.

Lemma paging_stays_within_rows_witness :
  let tv := mkTableView three_rows 5 1 0 (_filter (init three_rows)) in
  (1 ≤ nrows (df tv))%Z
  ∧ (0 ≤ _last_page_size tv)%Z
  ∧ (0 ≤ startat tv ≤ nrows (df tv) - 1)%Z
  ∧ startat (increment_page tv) = 2%Z
  ∧ startat (decrement_page tv) = 0%Z.
Proof.
  intros tv.
  assert (1 ≤ nrows (df tv))%Z as Hn by (vm_compute; discriminate).
  assert (0 ≤ _last_page_size tv)%Z as Hp by (vm_compute; discriminate).
  assert (0 ≤ startat tv ≤ nrows (df tv) - 1)%Z as Hs
    by (split; vm_compute; discriminate).
  destruct (paging_stays_within_rows tv Hn Hp Hs) as (_ & _ & Hdown & Hup).
  split; [exact Hn|]. split; [exact Hp|]. split; [exact Hs|].
  split; [rewrite Hdown | rewrite Hup]; reflexivity.
Defined.

(** X24: on a source without columns the column setter stores [-1],
    whatever offset is requested; the column slice that a rendering takes at
    that offset is empty, and the rows keep their index. *)
Theorem set_column_startat_without_columns
    (rs : list row) (page start cstart : Z)
    (flt : Editor.CaptureKeyboardInput) (c : Z) :
  column_startat
    (set_column_startat (mkTableView (mkDataFrame [] rs) page start cstart flt) c)
  = (-1)%Z
  ∧ columns (iloc_columns_from (mkDataFrame [] rs) (-1)) = []
  ∧ map fst (rows (iloc_columns_from (mkDataFrame [] rs) (-1))) = map fst rs.
Proof.
  rewrite set_column_startat_stored. unfold len. cbn [df columns length].
  split; [lia|]. split; [done|].
  unfold iloc_columns_from. cbn [rows]. by rewrite map_map.
Qed.

End ScrollMore.

Section ScrollMoreExamples.
Import Py Frame Table Examples.

Lemma set_column_startat_in_range_witness :
  (1 ≤ len (columns (df (init three_rows))))%Z
  ∧ filter_value (init three_rows) = None
  ∧ (0 ≤ column_startat (set_column_startat (init three_rows) 9)
     ≤ len (columns (df (init three_rows))) - 1)%Z
  ∧ filter_frame (eval_raises NameError) (set_column_startat (init three_rows) 9)
      (df (set_column_startat (init three_rows) 9))
    = Ok (df (init three_rows))
  ∧ (1 ≤ len (columns (iloc_columns_from (df (init three_rows))
                         (column_startat (set_column_startat (init three_rows) 9)))))%Z.
Proof.
  assert (1 ≤ len (columns (df (init three_rows))))%Z as H by (vm_compute; discriminate).
  exact (conj H (conj eq_refl
           (set_column_startat_in_range (eval_raises NameError) (init three_rows) 9
              H eq_refl))).
Defined.

(** With a filter text that is a column name the rendering slices the
    one-column view: at the stored offset 1 no data column is left. *)
Example column_offset_on_a_filtered_view :
  let tv := set_column_startat (view_with_filter three_rows "Age") 1 in
  column_startat tv = 1%Z
  ∧ snd (render (eval_raises NameError) text_measure (mkOptions 30 80) tv)
    = Ok (mkFrame true [" "]
            [[CInt 0]; [CInt 1]; [CInt 2]] 3).
Proof. split; reflexivity. Qed.

End ScrollMoreExamples.

(** ** Rendering, continued *)

Section RenderMore.
Import Py Frame Table Examples.
Context {frame_class : DataFrameClass}.
Variable py_eval : string → DataFrame → result value.
Variable measure_column : ConsoleOptions → Column → Z.

Lemma islice_negative_bound {A} (it : list A) (start stop : Z) :
  (start < 0 ∨ stop < 0)%Z → islice it start stop = Raise ValueError.
Proof.
  intros H. unfold islice.
  destruct (Z.ltb_spec start 0), (Z.ltb_spec stop 0); simpl; try done. lia.
Qed.

Lemma islice_length {A} (it : list A) (start stop : Z) :
  (0 ≤ start)%Z → (0 ≤ stop)%Z →
  ∃ page, islice it start stop = Ok page
          ∧ len page = Z.max 0 (Z.min (stop - start) (len it - start)).
Proof.
  intros H1 H2. unfold islice, len.
  destruct (Z.ltb_spec start 0), (Z.ltb_spec stop 0); try lia. simpl.
  eexists. split; [done|]. rewrite length_take, length_drop. lia.
Qed.

(** The column-fit step keeps every row of the page and never empties a
    header that has a column. *)
Lemma fit_columns_keeps_rows (measure : Column → Z) (width : Z)
    (column_names : list string) (paged : list (list cell)) :
  length (snd (fit_columns measure width column_names paged)) = length paged
  ∧ (column_names ≠ [] →
     fst (fit_columns measure width column_names paged) ≠ []).
Proof.
  unfold fit_columns.
  destruct (where_gt _ _) as [|first others]; cbn [fst snd]; [done|].
  rewrite length_map. split; [done|].
  intros Hne. destruct column_names as [|c cs]; [done|].
  destruct (decide _); [destruct (_ && _)|];
    (destruct first; simpl; try done; try (rewrite Nat.add_1_r; done)).
Qed.

(** X4: when the filter step succeeds, a rendering whose row offset is
    negative, or whose page would end before row 0 (a console too low for
    the offset), raises ValueError: [islice] refuses the negative bound.
    The page size has been recorded all the same. *)
Theorem render_refuses_negative_bounds (options : ConsoleOptions)
    (tv : TableView) (filtered : DataFrame) :
  filter_frame py_eval tv (df tv) = Ok filtered →
  (startat tv < 0 ∨ startat tv + body_height options tv < 0)%Z →
  snd (render py_eval measure_column options tv) = Raise ValueError
  ∧ _last_page_size (fst (render py_eval measure_column options tv))
    = body_height options tv.
Proof.
  intros Hf Hneg. split; [|done].
  rewrite render_result, Hf.
  by rewrite islice_negative_bound.
Qed.

(** X5: when the filter step returns a frame whose rows can be read (it
    raises nothing, and what it returns is no lazy frame that fails when it
    is computed) and neither bound of the page is negative, the rendering
    succeeds.  The footer counts the rows of the
    filtered view, whatever the offset; the page holds the rows from the
    offset on, at most as many as the body is high; the header is not
    empty; and of the view only the recorded page size changes. *)
Theorem render_page_shape (options : ConsoleOptions) (tv : TableView)
    (filtered : DataFrame) :
  filter_frame py_eval tv (df tv) = Ok filtered →
  (0 ≤ startat tv)%Z →
  (0 ≤ startat tv + body_height options tv)%Z →
  ∃ frame,
    snd (render py_eval measure_column options tv) = Ok frame
    ∧ frame_total frame = nrows filtered
    ∧ len (frame_rows frame)
      = Z.max 0 (Z.min (body_height options tv) (nrows filtered - startat tv))
    ∧ frame_columns frame ≠ []
    ∧ frame_filter frame = filter_shown tv
    ∧ fst (render py_eval measure_column options tv)
      = set_last_page_size tv (body_height options tv).
Proof.
  intros Hf H0 H1. rewrite render_result, Hf.
  destruct (islice_length
              (itertuples (iloc_columns_from filtered (column_startat tv)))
              (startat tv) (startat tv + body_height options tv) H0 H1)
    as (page & -> & Hlen).
  py_step. eexists. split; [done|]. cbn [frame_total frame_rows frame_columns frame_filter].
  split; [apply nrows_iloc_columns_from|]. split; [|split; [|split; [done|done]]].
  - destruct (fit_columns_keeps_rows (measure_column options) (max_width options - 2)
                (" " :: columns (iloc_columns_from filtered (column_startat tv)))
                page) as [Hrows _].
    unfold len in *. rewrite Hrows, Hlen.
    unfold itertuples. rewrite length_map.
    pose proof (nrows_iloc_columns_from filtered (column_startat tv)) as Hn.
    unfold nrows, len in Hn. unfold nrows, len. lia.
  - by apply fit_columns_keeps_rows.
Qed.

End RenderMore.

Section RenderMoreExamples.
Import Py Frame Table Examples.

Lemma render_refuses_negative_bounds_witness :
  filter_frame (eval_raises NameError) (init three_rows) (df (init three_rows))
  = Ok three_rows
  ∧ (startat (init three_rows) < 0
     ∨ startat (init three_rows) + body_height (mkOptions 5 80) (init three_rows) < 0)%Z
  ∧ snd (render (eval_raises NameError) text_measure (mkOptions 5 80) (init three_rows))
    = Raise ValueError.
Proof.
  assert (filter_frame (eval_raises NameError) (init three_rows) (df (init three_rows))
          = Ok three_rows) as Hf by reflexivity.
  assert (startat (init three_rows) < 0
          ∨ startat (init three_rows) + body_height (mkOptions 5 80) (init three_rows) < 0)%Z
    as Hneg by (right; reflexivity).
  split; [exact Hf|]. split; [exact Hneg|].
  exact (proj1 (render_refuses_negative_bounds (eval_raises NameError) text_measure
                  (mkOptions 5 80) (init three_rows) three_rows Hf Hneg)).
Defined.

Lemma render_page_shape_witness :
  let tv := set_startat (init three_rows) 1 in
  filter_frame (eval_raises NameError) tv (df tv) = Ok three_rows
  ∧ (0 ≤ startat tv)%Z
  ∧ (0 ≤ startat tv + body_height (mkOptions 30 80) tv)%Z
  ∧ ∃ frame,
      snd (render (eval_raises NameError) text_measure (mkOptions 30 80) tv) = Ok frame
      ∧ frame_total frame = 3%Z
      ∧ len (frame_rows frame) = 2%Z.
Proof.
  intros tv.
  assert (filter_frame (eval_raises NameError) tv (df tv) = Ok three_rows)
    as Hf by reflexivity.
  assert (0 ≤ startat tv)%Z as H0 by (vm_compute; discriminate).
  assert (0 ≤ startat tv + body_height (mkOptions 30 80) tv)%Z as H1
    by (vm_compute; discriminate).
  split; [exact Hf|]. split; [exact H0|]. split; [exact H1|].
  destruct (render_page_shape (eval_raises NameError) text_measure
              (mkOptions 30 80) tv three_rows Hf H0 H1)
    as (frame & Hr & Ht & Hl & _).
  exists frame. split; [exact Hr|]. split; [exact Ht|]. rewrite Hl. reflexivity.
Defined.

End RenderMoreExamples.

(** ** The filter, continued *)

Section FilterMore.
Import Py Frame Table Examples.
Context {frame_class : DataFrameClass}.

(** A text that contains another occurs only where the other occurs. *)
Lemma contains_trans (s long short : string) :
  contains long short = true → contains s long = true → contains s short = true.
Proof.
  rewrite !contains_iff. intros (a' & b' & ->) (a & b & ->).
  exists (a +:+ a'), (b' +:+ b). by rewrite !append_assoc.
Qed.

Lemma row_matches_trans (long short : string) (r : row) :
  contains long short = true →
  row_matches long r = true → row_matches short r = true.
Proof.
  intros Hc. unfold row_matches. rewrite !existsb_exists.
  intros (c & Hin & Hm). exists c. split; [done|]. by eapply contains_trans.
Qed.

(** X7: on a well-formed frame with at least one column, none of which has
    the name of an attribute of the DataFrame class, the substring search
    does not fail, and searching for a longer text narrows the result: when
    [short] occurs in [long], every row kept for [long] is kept for
    [short]. *)
Theorem longer_text_narrows_the_search (df : DataFrame) (short long : string) :
  wf df → columns df ≠ [] →
  Forall (fun c => is_attribute c = false) (columns df) →
  contains long short = true →
  ∃ f_short f_long,
    substring_search df short = Ok f_short
    ∧ substring_search df long = Ok f_long
    ∧ ∀ r, r ∈ rows f_long → r ∈ rows f_short.
Proof.
  intros Hwf Hne Hattr Hc.
  rewrite !substring_search_rows by done.
  eexists _, _. split; [done|]. split; [done|]. cbn [rows].
  intros r. rewrite !list_elem_of_In, !filter_In.
  intros [Hin Hm]. split; [done|]. by eapply row_matches_trans.
Qed.

Lemma compress_sublist {A} (l : list A) (mask : list bool) :
  compress l mask `sublist_of` l.
Proof.
  revert mask. induction l as [|x l IH]; intros [|b mask]; simpl;
    try apply sublist_nil_l.
  destruct b; [by apply sublist_skip | by apply sublist_cons].
Qed.

Lemma select_rows_sublist (df f : DataFrame) (mask : list bool) :
  select_rows df mask = Ok f →
  columns f = columns df ∧ rows f `sublist_of` rows df.
Proof.
  unfold select_rows. destruct (decide _); [|done].
  intros [= <-]. split; [done|]. apply compress_sublist.
Qed.

Lemma substring_search_sublist (df f : DataFrame) (text : string) :
  substring_search df text = Ok f →
  columns f = columns df ∧ rows f `sublist_of` rows df.
Proof.
  unfold substring_search.
  destruct (column_masks df (columns df) text) as [masks| |]; [|done|done]. py_step.
  destruct (reduce mask_or masks) as [mask| |]; [|done|done]. py_step.
  apply select_rows_sublist.
Qed.

(** A boolean value per row that cannot be aligned with the rows gives a
    lazy frame that cannot be computed; the filter step returns it. *)
Lemma filter_frame_unaligned_mask
    (py_eval : string → DataFrame → result value)
    (tv : TableView) (df : DataFrame) (text : string) (mask : list bool) :
  filter_value tv = Some text →
  strip text ∉ columns df →
  py_eval text df = Ok (VMask mask) →
  length mask ≠ length (rows df) →
  filter_frame py_eval tv df = Deferred IndexingError.
Proof.
  intros Hf Hn He Hlen. apply (filter_frame_deferred py_eval tv df text _ Hf).
  rewrite compile_filter_eval by done. rewrite He. py_step.
  cbn [getitem]. unfold select_rows. by destruct (decide _).
Qed.

(** X8: when the filter text is no column name and its evaluation yields a
    boolean value per row or raises, a filter step that returns a frame
    whose rows can be read returns the columns of the source and a
    selection of its rows, in their order: it adds, repeats and reorders
    nothing. *)
Theorem filter_selects_rows_of_the_source
    (py_eval : string → DataFrame → result value)
    (tv : TableView) (df f : DataFrame) (text : string) :
  filter_value tv = Some text →
  strip text ∉ columns df →
  (∃ mask, py_eval text df = Ok (VMask mask)) ∨ (∃ e, py_eval text df = Raise e) →
  filter_frame py_eval tv df = Ok f →
  columns f = columns df ∧ rows f `sublist_of` rows df.
Proof.
  intros Hf Hn Hev. unfold filter_frame. rewrite Hf.
  rewrite compile_filter_eval by done.
  destruct Hev as [[mask ->] | [e ->]]; py_step.
  - cbn [getitem]. destruct (select_rows df mask) as [f'|e|e] eqn:Hs; py_step.
    + cbn [as_frame]. intros [= <-]. by eapply select_rows_sublist.
    + apply substring_search_sublist.
    + done.
  - apply substring_search_sublist.
Qed.

End FilterMore.

Section FilterMoreExamples.
Import Py Frame Table Examples.

Lemma wf_three_rows : wf three_rows.
Proof.
  split.
  - apply (bool_decide_unpack _). by vm_compute.
  - repeat constructor.
Defined.

(** No column of [three_rows] has the name of an attribute of the class of
    the examples. *)
Lemma plain_three_rows :
  Forall (fun c => is_attribute c = false) (columns three_rows).
Proof. repeat constructor. Defined.

Lemma filter_frame_eval_error_witness :
  wf three_rows
  ∧ columns three_rows ≠ []
  ∧ Forall (fun c => is_attribute c = false) (columns three_rows)
  ∧ filter_value (view_with_filter three_rows "Bob") = Some "Bob"
  ∧ (strip "Bob" ∉ columns three_rows)
  ∧ eval_raises NameError "Bob" three_rows = Raise NameError
  ∧ ∃ kept,
      filter_frame (eval_raises NameError) (view_with_filter three_rows "Bob") three_rows
      = Ok (mkDataFrame (columns three_rows) kept)
      ∧ kept = [(1, [CStr "Bob"; CInt 25])]%Z.
Proof.
  assert (columns three_rows ≠ []) as Hne by done.
  assert (strip "Bob" ∉ columns three_rows) as Hn
    by (apply (bool_decide_unpack _); by vm_compute).
  split; [exact wf_three_rows|]. split; [exact Hne|]. split; [exact plain_three_rows|].
  split; [reflexivity|]. split; [exact Hn|]. split; [reflexivity|].
  destruct (filter_frame_eval_error (eval_raises NameError)
              (view_with_filter three_rows "Bob") three_rows "Bob" NameError
              wf_three_rows Hne plain_three_rows eq_refl Hn eq_refl)
    as (kept & Hf & Hk & _).
  exists kept. split; [exact Hf|]. rewrite Hk. reflexivity.
Defined.

Lemma longer_text_narrows_the_search_witness :
  wf three_rows
  ∧ columns three_rows ≠ []
  ∧ Forall (fun c => is_attribute c = false) (columns three_rows)
  ∧ contains "Bob" "o" = true
  ∧ ∃ f_short f_long,
      substring_search three_rows "o" = Ok f_short
      ∧ substring_search three_rows "Bob" = Ok f_long
      ∧ ∀ r, r ∈ rows f_long → r ∈ rows f_short.
Proof.
  assert (columns three_rows ≠ []) as Hne by done.
  assert (contains "Bob" "o" = true) as Hc by reflexivity.
  exact (conj wf_three_rows (conj Hne (conj plain_three_rows (conj Hc
           (longer_text_narrows_the_search three_rows "o" "Bob"
              wf_three_rows Hne plain_three_rows Hc))))).
Defined.

Lemma filter_selects_rows_of_the_source_witness :
  filter_value (view_with_filter three_rows "Age > 30") = Some "Age > 30"
  ∧ (strip "Age > 30" ∉ columns three_rows)
  ∧ filter_frame eval_mask (view_with_filter three_rows "Age > 30") three_rows
    = Ok (mkDataFrame ["Name"; "Age"]
            [(0, [CStr "Ann"; CInt 31]); (2, [CStr "Cy"; CInt 47])]%Z)
  ∧ rows (mkDataFrame ["Name"; "Age"]
            [(0, [CStr "Ann"; CInt 31]); (2, [CStr "Cy"; CInt 47])]%Z)
    `sublist_of` rows three_rows.
Proof.
  assert (strip "Age > 30" ∉ columns three_rows) as Hn
    by (apply (bool_decide_unpack _); by vm_compute).
  assert (filter_frame eval_mask (view_with_filter three_rows "Age > 30") three_rows
          = Ok (mkDataFrame ["Name"; "Age"]
                  [(0, [CStr "Ann"; CInt 31]); (2, [CStr "Cy"; CInt 47])]%Z))
    as Hr by reflexivity.
  split; [reflexivity|]. split; [exact Hn|]. split; [exact Hr|].
  exact (proj2 (filter_selects_rows_of_the_source eval_mask
                  (view_with_filter three_rows "Age > 30") three_rows _ "Age > 30"
                  eq_refl Hn (or_introl (ex_intro _ [true; false; true] eq_refl)) Hr)).
Defined.

(** A mask of two values on a source of three rows: the filter step returns
    a lazy frame, and the IndexingError escapes the rendering. *)
Example unaligned_mask_escapes_the_rendering :
  let py_eval := fun (text : string) (df : DataFrame) => Ok (VMask [true; false]) in
  filter_frame py_eval (view_with_filter three_rows "other > 1") three_rows
  = Deferred IndexingError
  ∧ snd (render py_eval text_measure (mkOptions 30 80)
           (view_with_filter three_rows "other > 1"))
    = Raise IndexingError.
Proof. split; reflexivity. Qed.

End FilterMoreExamples.

(** ** The column-fit step, continued *)

Section ColumnFitMore.
Import Py Frame Table Examples.
Variable measure_column : Column → Z.

Lemma where_gt_from_none (i : nat) (a : list Z) (bound : Z) :
  Forall (fun x => (x ≤ bound)%Z) a → where_gt_from i a bound = [].
Proof.
  revert i. induction a as [|x a IH]; intros i Hall; simpl; [done|].
  apply Forall_cons in Hall as [Hx Hall].
  destruct (Z.ltb_spec bound x); [lia|]. by apply IH.
Qed.

(** With widths that are not negative, no running sum exceeds the total. *)
Lemma accumulate_from_bounded (acc : Z) (l : list Z) :
  Forall (fun x => (0 ≤ x)%Z) l →
  Forall (fun s => (s ≤ acc + foldr Z.add 0 l)%Z) (accumulate_from acc l).
Proof.
  revert acc. induction l as [|x l IH]; intros acc Hall; simpl; [constructor|].
  apply Forall_cons in Hall as [Hx Hall].
  pose proof (IH (acc + x)%Z Hall) as Hrest.
  assert (0 ≤ foldr Z.add 0 l)%Z as Hsum.
  { clear -Hall. induction Hall; simpl; lia. }
  constructor; [lia|].
  eapply Forall_impl; [exact Hrest|]. intros s Hs. simpl in Hs. lia.
Qed.




(** X10: when no measured width is negative and the widths of the measured
    columns (maximum width plus 1 each) add up to at most the viewport
    width, nothing is cut: the header and the rows of the page are returned
    as they are. *)
Theorem fit_columns_keeps_all_that_fits (width : Z) (column_names : list string)
    (paged : list (list cell)) :
  (∀ c, 0 ≤ measure_column c)%Z →
  (foldr Z.add 0
     (map (fun c => measure_column c + 1)
        (zip_with mkColumn column_names (zip_star paged))) ≤ width)%Z →
  fit_columns measure_column width column_names paged = (column_names, paged).
Proof.
  intros Hpos Hsum. unfold fit_columns, where_gt, accumulate.
  rewrite where_gt_from_none; [done|].
  rewrite map_map.
  eapply Forall_impl.
  - apply accumulate_from_bounded. apply Forall_map, Forall_forall.
    intros c _. specialize (Hpos c). simpl. lia.
  - intros s Hs. simpl in Hs. lia.
Qed.

End ColumnFitMore.

Section ColumnFitOptions.
Import Py Frame Table Examples.




End ColumnFitOptions.

Section ColumnFitMoreExamples.
Import Py Frame Table Examples.

Lemma text_width_nonneg (c : Column) : (0 ≤ text_width c)%Z.
Proof. unfold text_width. lia. Qed.

Lemma fit_columns_keeps_all_that_fits_witness :
  (∀ c, 0 ≤ text_width c)%Z
  ∧ (foldr Z.add 0
       (map (fun c => text_width c + 1)
          (zip_with mkColumn [" "; "Name"; "Age"] (zip_star (itertuples three_rows))))
     ≤ 11)%Z
  ∧ fit_columns text_width 11 [" "; "Name"; "Age"] (itertuples three_rows)
    = ([" "; "Name"; "Age"], itertuples three_rows).
Proof.
  assert (foldr Z.add 0
            (map (fun c => text_width c + 1)
               (zip_with mkColumn [" "; "Name"; "Age"] (zip_star (itertuples three_rows))))
          ≤ 11)%Z as Hsum by (vm_compute; discriminate).
  exact (conj text_width_nonneg (conj Hsum
           (fit_columns_keeps_all_that_fits text_width 11 [" "; "Name"; "Age"]
              (itertuples three_rows) text_width_nonneg Hsum))).
Defined.

End ColumnFitMoreExamples.

(** ** The editor, continued *)

Section EditorMore.
Import Py Editor Keys.

Lemma append_snoc_inj (v p : string) (a b : ascii) :
  v +:+ String a "" = p +:+ String b "" → v = p ∧ a = b.
Proof.
  revert p. induction v as [|c v IH]; intros [|d p];
    rewrite ?append_nil_l, ?append_cons.
  - by intros [= ->].
  - intros [= _ H]. symmetry in H. by apply append_eq_nil in H as [_ ?].
  - intros [= _ H]. by apply append_eq_nil in H as [_ ?].
  - intros [= -> H]. apply IH in H as [-> ->]. done.
Qed.

(** A buffer that ends with [a] ends with a newline exactly when [a] is
    one. *)
Lemma endswith_snoc (v : string) (a b : ascii) :
  endswith (v +:+ String a "") (String b "") = Ascii.eqb a b.
Proof.
  destruct (Ascii.eqb_spec a b) as [-> | Hne].
  - apply endswith_iff. by exists v.
  - destruct (endswith _ _) eqn:He; [|done].
    apply endswith_iff in He as [p Hp].
    apply append_snoc_inj in Hp as [_ ?]. done.
Qed.

(** [s[:-1]] undoes the appending of one character. *)
Lemma drop_last_snoc (v : string) (a : ascii) :
  drop_last (v +:+ String a "") = v.
Proof.
  induction v as [|c v IH]; [done|].
  rewrite append_cons. simpl.
  destruct (v +:+ String a "") as [|d s] eqn:Hv.
  - by apply append_eq_nil in Hv as [_ ?].
  - by rewrite IH.
Qed.

(** A stripped character at the end changes nothing to what [rstrip_by]
    leaves. *)
Lemma rstrip_by_snoc (p : ascii → bool) (s : string) (a : ascii) :
  p a = true → rstrip_by p (s +:+ String a "") = rstrip_by p s.
Proof.
  intros Hp. induction s as [|c s IH].
  - rewrite append_nil_l. simpl. by rewrite Hp.
  - rewrite append_cons. simpl. by rewrite IH.
Qed.

Lemma ordinary_inv (ch : string) :
  ordinary ch = true →
  ∃ a, ch = String a ""
       ∧ ch ≠ ESCAPE_KEY ∧ ch ≠ CTRL_H ∧ ch ≠ BACKSPACE ∧ ch ≠ CTRL_K
       ∧ a ≠ LF.
Proof.
  destruct ch as [|a [|? ?]]; try done. simpl.
  rewrite negb_true_iff, !orb_false_iff.
  intros ((((H1 & H2) & H3) & H4) & H5).
  apply Ascii.eqb_neq in H1, H2, H3, H4, H5.
  exists a. unfold ESCAPE_KEY, CTRL_H, BACKSPACE, CTRL_K.
  repeat split; try done; intros [= ->]; done.
Qed.

(** An ordinary character is appended to the buffer. *)
Lemma edit_buffer_ordinary (st : CaptureState) (ch : string) :
  ordinary ch = true → edit_buffer st ch = set_value st (value st +:+ ch).
Proof.
  intros Ho. apply ordinary_inv in Ho as (a & -> & _ & Hh & Hb & Hk & _).
  unfold edit_buffer.
  destruct (String.eqb_spec (String a "") BACKSPACE); [done|].
  destruct (String.eqb_spec (String a "") CTRL_H); [done|].
  destruct (String.eqb_spec (String a "") CTRL_K); [done|]. done.
Qed.

(** With the policy of the filter prompt, an ordinary character is appended
    and the editing goes on. *)
Lemma send_character_ordinary (cap : CaptureKeyboardInput) (ch : string) :
  update cap = exit_on_return →
  ordinary ch = true →
  send_character cap ch
  = (set_state cap (set_value (state cap) (value (state cap) +:+ ch)), true).
Proof.
  intros Hu Ho. rewrite send_character_update. cbn zeta.
  rewrite edit_buffer_ordinary by done. rewrite Hu.
  apply ordinary_inv in Ho as (a & -> & _ & _ & _ & _ & Hlf).
  unfold exit_on_return. cbn [value set_value]. unfold NEWLINE.
  rewrite endswith_snoc.
  destruct (Ascii.eqb_spec a LF); [done|]. done.
Qed.

(** X11: with the policy of the filter prompt, on a buffer that does not end
    with a newline, an ordinary character followed by backspace (or ctrl-h)
    leaves the editor as it was, and the editing goes on after both; on an
    empty buffer backspace alone changes nothing. *)
Theorem backspace_undoes_a_character (cap : CaptureKeyboardInput) (ch : string) :
  update cap = exit_on_return →
  ordinary ch = true →
  endswith (value (state cap)) NEWLINE = false →
  snd (send_character cap ch) = true
  ∧ send_character (fst (send_character cap ch)) BACKSPACE = (cap, true)
  ∧ send_character (fst (send_character cap ch)) CTRL_H = (cap, true)
  ∧ (value (state cap) = "" → send_character cap BACKSPACE = (cap, true)).
Proof.
  intros Hu Ho Hv. rewrite send_character_ordinary by done. cbn [fst snd].
  apply ordinary_inv in Ho as (a & -> & _).
  destruct cap as [[p v e] u f]. cbn [state value update] in *. subst u.
  split; [done|].
  unfold send_character, edit_buffer, set_state, set_value, exit_on_return.
  cbn [state value update prompt editing finalize String.eqb Ascii.eqb].
  cbn. rewrite drop_last_snoc, Hv.
  split; [done|]. split; [done|]. by intros ->.
Qed.

End EditorMore.

Section EditorMoreExamples.
Import Py Editor Keys Examples.

Lemma backspace_undoes_a_character_witness :
  update (Table._filter (Table.init three_rows)) = exit_on_return
  ∧ ordinary "x" = true
  ∧ endswith (value (state (Table._filter (Table.init three_rows)))) NEWLINE = false
  ∧ send_character
      (fst (send_character (Table._filter (Table.init three_rows)) "x")) BACKSPACE
    = (Table._filter (Table.init three_rows), true).
Proof.
  destruct (backspace_undoes_a_character (Table._filter (Table.init three_rows)) "x"
              eq_refl eq_refl eq_refl) as (_ & Hb & _).
  exact (conj eq_refl (conj eq_refl (conj eq_refl Hb))).
Defined.

End EditorMoreExamples.

(** ** The keyboard handler, continued *)

Section HandlerMore.
Import Py Frame Ui Keys.
Variables commands table_commands : gmap string Command.

(** What an ordinary character does while an editor with the policy of the
    filter prompt captures the input. *)
Lemma keyboard_handler_ordinary (ui : Interface) (r : editor_ref) (ch : string) :
  editing ui = Some r →
  Editor.update (deref ui r) = Editor.exit_on_return →
  ordinary ch = true →
  keyboard_handler commands table_commands ui ch
  = (refresh
       (record
          (assign ui r
             (Editor.set_state (deref ui r)
                (Editor.set_value (Editor.state (deref ui r))
                   (Editor.value (Editor.state (deref ui r)) +:+ ch))))
          (Update (Editor.value (Editor.state (deref ui r)) +:+ ch))),
     true).
Proof.
  intros He Hu Ho. rewrite (keyboard_handler_editing _ _ ui r ch He).
  unfold handle_editing.
  pose proof (ordinary_inv ch Ho) as (a & _ & Hesc & _).
  destruct (String.eqb_spec ch Editor.ESCAPE_KEY); [done|].
  rewrite send_character_ordinary by done.
  rewrite edit_buffer_ordinary by done. done.
Qed.

(** What the newline does then: the buffer is committed without its
    trailing carriage returns and newlines, and the editing ends. *)
Lemma keyboard_handler_newline (ui : Interface) (r : editor_ref) :
  editing ui = Some r →
  Editor.update (deref ui r) = Editor.exit_on_return →
  Editor.finalize (deref ui r) = Editor.default_finalize →
  let out := keyboard_handler commands table_commands ui Editor.NEWLINE in
  snd out = true
  ∧ editing (fst out) = None
  ∧ Editor.state (deref (fst out) r)
    = Editor.mkState (Editor.prompt (Editor.state (deref ui r)))
        (rstrip (Editor.value (Editor.state (deref ui r))) Editor.CRLF) false.
Proof.
  intros He Hu Hf out. subst out.
  rewrite (keyboard_handler_editing _ _ ui r _ He).
  destruct r. destruct ui as [d [td lp sa cs [[p v e] u f]] m ed cl].
  cbn [deref table Table._filter Editor.update Editor.finalize Editor.state
       Editor.value Editor.prompt] in *.
  subst u f. unfold handle_editing.
  change (String.eqb Editor.NEWLINE Editor.ESCAPE_KEY) with false. cbv iota.
  unfold Editor.send_character, Editor.edit_buffer.
  change (String.eqb Editor.NEWLINE Editor.BACKSPACE) with false.
  change (String.eqb Editor.NEWLINE Editor.CTRL_H) with false.
  change (String.eqb Editor.NEWLINE Editor.CTRL_K) with false.
  cbn [orb deref table Table._filter Editor.state Editor.update Editor.set_value
       Editor.value Editor.prompt Editor.editing].
  unfold Editor.exit_on_return, Editor.NEWLINE.
  rewrite endswith_snoc. change (Ascii.eqb LF LF) with true. cbv iota.
  cbn. unfold rstrip.
  rewrite rstrip_by_snoc by done. done.
Qed.

(** X12: a line typed at a prompt with the policy of the filter prompt (and
    no finalize action): after ordinary characters and a newline, the
    handler has returned [true] for every character, the editing has ended,
    and the editor holds what it held before followed by the characters
    typed, without trailing carriage returns and newlines. *)
Theorem typing_a_line_commits_it (chars : list string) (ui : Interface)
    (r : editor_ref) :
  editing ui = Some r →
  Editor.update (deref ui r) = Editor.exit_on_return →
  Editor.finalize (deref ui r) = Editor.default_finalize →
  Forall (fun ch => ordinary ch = true) chars →
  let out := feed_session commands table_commands ui (chars ++ [Editor.NEWLINE]) in
  snd out = replicate (S (length chars)) true
  ∧ editing (fst out) = None
  ∧ Editor.state (deref (fst out) r)
    = Editor.mkState (Editor.prompt (Editor.state (deref ui r)))
        (rstrip (Editor.value (Editor.state (deref ui r)) +:+ typed chars)
           Editor.CRLF)
        false.
Proof.
  revert ui. induction chars as [|ch chars IH]; intros ui He Hu Hf Hall out;
    subst out.
  - cbn [app feed_session]. rewrite He.
    destruct (keyboard_handler_newline ui r He Hu Hf) as (Hret & Hnone & Hst).
    destruct (keyboard_handler commands table_commands ui Editor.NEWLINE)
      as [ui' b]. cbn [fst snd] in *. subst b.
    cbn [fst snd length replicate feed_session].
    split; [done|]. split; [done|].
    unfold typed. cbn [foldr]. by rewrite append_nil_r.
  - apply Forall_cons in Hall as [Ho Hall].
    cbn [app feed_session]. rewrite He.
    rewrite (keyboard_handler_ordinary ui r ch He Hu Ho).
    set (ui1 := refresh _).
    assert (editing ui1 = Some r) as He1 by (by destruct r).
    assert (deref ui1 r
            = Editor.set_state (deref ui r)
                (Editor.set_value (Editor.state (deref ui r))
                   (Editor.value (Editor.state (deref ui r)) +:+ ch))) as Hd1
      by (by destruct r).
    assert (Editor.update (deref ui1 r) = Editor.exit_on_return) as Hu1
      by (by rewrite Hd1).
    assert (Editor.finalize (deref ui1 r) = Editor.default_finalize) as Hf1
      by (by rewrite Hd1).
    pose proof (IH ui1 He1 Hu1 Hf1 Hall) as IH1. cbv zeta in IH1.
    destruct (feed_session commands table_commands ui1 (chars ++ [Editor.NEWLINE]))
      as [ui2 bs]. cbn [fst snd] in *.
    destruct IH1 as (Hbs & Hnone & Hst).
    split; [by rewrite Hbs|]. split; [done|].
    rewrite Hst, Hd1. cbn [Editor.state Editor.set_state Editor.set_value
                            Editor.value Editor.prompt].
    unfold typed. cbn [foldr]. by rewrite append_assoc.
Qed.

(** X13: while an editor captures the input, a character changes nothing
    but that editor's attributes and the editing slot: the mode, the source,
    the row and column offsets, the recorded page size and the callbacks of
    the editor stay as they are, whatever the character. *)
Theorem editing_leaves_the_view_alone (ui : Interface) (r : editor_ref)
    (ch : string) :
  editing ui = Some r →
  let ui' := fst (keyboard_handler commands table_commands ui ch) in
  mode ui' = mode ui
  ∧ df ui' = df ui
  ∧ Table.df (table ui') = Table.df (table ui)
  ∧ Table.startat (table ui') = Table.startat (table ui)
  ∧ Table.column_startat (table ui') = Table.column_startat (table ui)
  ∧ Table._last_page_size (table ui') = Table._last_page_size (table ui)
  ∧ Editor.update (deref ui' r) = Editor.update (deref ui r)
  ∧ Editor.finalize (deref ui' r) = Editor.finalize (deref ui r).
Proof.
  intros He ui'. subst ui'. rewrite (keyboard_handler_editing _ _ ui r ch He).
  destruct (handle_editing_cases ui r ch)
    as [[_ ->] | [(_ & _ & ->) | (_ & _ & ->)]]; cbn [fst];
    destruct r; rewrite ?send_character_update; done.
Qed.

End HandlerMore.

(** ** The registered commands *)

Section RegisteredCommands.
Import Py Frame Ui Keys Examples.

(** The dictionaries that the decorators build. *)
Lemma the_commands_eq :
  the_commands
  = <["?" := mkCommand "?" "help" show_help "Show this help page"]>
      (<["q" := mkCommand "q" "(q)uit" quit "Quit"]>
         (<["t" := mkCommand "t" "(t)able" table_mode "Show the database as a table"]>
            (<["s" := mkCommand "s" "(s)ummary" summary_mode
                        "Show a summary of the database"]> ∅))).
Proof. reflexivity. Qed.

Lemma the_table_commands_eq :
  the_table_commands
  = <["G" := mkCommand "G" "Go to bottom" go_to_bottom "Go to the bottom of the table"]>
      (<["g" := mkCommand "g" "Go to top" go_to_top "Go to the top of the table"]>
         (<["l" := mkCommand "l" "scroll right" scroll_right
                     "Scroll right one column in the table view"]>
            (<["k" := mkCommand "k" "scroll up" scroll_up
                        "Scroll up one page in the table view"]>
               (<["j" := mkCommand "j" "scroll down" scroll_down
                           "Scroll down one page in the table view"]>
                  (<["h" := mkCommand "h" "scroll left" scroll_left
                              "Scroll left one column in the table view"]>
                     (<["/" := mkCommand "/" "filter" edit_filter
                                 edit_filter_doc]> ∅)))))).
Proof. reflexivity. Qed.

(** The keys of the global commands and what they run. *)
Lemma the_commands_lookup (ch : string) (c : Command) :
  the_commands !! ch = Some c →
  (ch = "s" ∧ fn c = summary_mode) ∨ (ch = "t" ∧ fn c = table_mode)
  ∨ (ch = "q" ∧ fn c = quit) ∨ (ch = "?" ∧ fn c = show_help).
Proof.
  rewrite the_commands_eq, !lookup_insert, lookup_empty.
  repeat case_decide; intros [= <-]; subst; auto.
Qed.

(** The keys of the table commands and what they run. *)
Lemma the_table_commands_lookup (ch : string) (c : Command) :
  the_table_commands !! ch = Some c →
  (ch = "/" ∧ fn c = edit_filter) ∨ (ch = "h" ∧ fn c = scroll_left)
  ∨ (ch = "j" ∧ fn c = scroll_down) ∨ (ch = "k" ∧ fn c = scroll_up)
  ∨ (ch = "l" ∧ fn c = scroll_right) ∨ (ch = "g" ∧ fn c = go_to_top)
  ∨ (ch = "G" ∧ fn c = go_to_bottom).
Proof.
  rewrite the_table_commands_eq, !lookup_insert, lookup_empty.
  repeat case_decide; intros [= <-]; subst; auto 10.
Qed.

(** X14: the decorators register every command (no key twice in a scope);
    the global scope has exactly the keys [s], [t], [q] and [?], the table
    scope exactly [/], [h], [j], [k], [l], [g] and [G]; and no key is in
    both scopes, so the priority of the table scope shadows no global
    command. *)
Theorem scopes_do_not_overlap :
  is_ok register_commands = true
  ∧ is_ok register_table_commands = true
  ∧ (∀ ch, is_Some (the_commands !! ch) ↔ ch ∈ ["s"; "t"; "q"; "?"])
  ∧ (∀ ch, is_Some (the_table_commands !! ch)
           ↔ ch ∈ ["/"; "h"; "j"; "k"; "l"; "g"; "G"])
  ∧ (∀ ch, ¬ (is_Some (the_commands !! ch) ∧ is_Some (the_table_commands !! ch))).
Proof.
  split; [reflexivity|]. split; [reflexivity|].
  assert (∀ ch, is_Some (the_commands !! ch) ↔ ch ∈ ["s"; "t"; "q"; "?"]) as Hg.
  { intros ch. split.
    - intros [c Hc]. apply the_commands_lookup in Hc.
      destruct Hc as [[-> _] | [[-> _] | [[-> _] | [-> _]]]];
        repeat first [apply list_elem_of_here | apply list_elem_of_further].
    - rewrite !elem_of_cons, elem_of_nil.
      intros [-> | [-> | [-> | [-> | []]]]]; by eexists. }
  assert (∀ ch, is_Some (the_table_commands !! ch)
                ↔ ch ∈ ["/"; "h"; "j"; "k"; "l"; "g"; "G"]) as Ht.
  { intros ch. split.
    - intros [c Hc]. apply the_table_commands_lookup in Hc.
      destruct Hc as [[-> _] | [[-> _] | [[-> _] | [[-> _] | [[-> _] | [[-> _] | [-> _]]]]]]];
        repeat first [apply list_elem_of_here | apply list_elem_of_further].
    - rewrite !elem_of_cons, elem_of_nil.
      intros [-> | [-> | [-> | [-> | [-> | [-> | [-> | []]]]]]]]; by eexists. }
  split; [exact Hg|]. split; [exact Ht|].
  intros ch [H1 H2]. apply Hg in H1. apply Ht in H2.
  rewrite !elem_of_cons, elem_of_nil in H1.
  destruct H1 as [-> | [-> | [-> | [-> | []]]]];
    rewrite !elem_of_cons, elem_of_nil in H2;
    destruct H2 as [H | [H | [H | [H | [H | [H | [H | []]]]]]]]; discriminate H.
Qed.

Lemma table_command_goes_on (ch : string) (c : Command) (ui : Interface) :
  the_table_commands !! ch = Some c → snd (fn c ui) = true ∧ ch ≠ "q".
Proof.
  intros Hc. apply the_table_commands_lookup in Hc.
  destruct Hc as [[-> ->] | [[-> ->] | [[-> ->] | [[-> ->] | [[-> ->] | [[-> ->] | [-> ->]]]]]]];
    done.
Qed.

Lemma global_command_stops (ch : string) (c : Command) (ui : Interface) :
  the_commands !! ch = Some c → snd (fn c ui) = false ↔ ch = "q".
Proof.
  intros Hc. apply the_commands_lookup in Hc.
  destruct Hc as [[-> ->] | [[-> ->] | [[-> ->] | [-> ->]]]]; done.
Qed.

(** X15: with the registered commands and no editor capturing the input,
    the handler answers [false] (stop the loop) for the key [q], in every
    mode, and for no other character. *)
Theorem quit_is_the_only_exit (ui : Interface) (ch : string) :
  editing ui = None →
  snd (keyboard_handler the_commands the_table_commands ui ch) = false ↔ ch = "q".
Proof.
  intros He. unfold keyboard_handler. rewrite He.
  destruct (if decide (mode ui = TABLE) then the_table_commands !! ch else None)
    as [c|] eqn:Ht.
  - destruct (decide _); [|done].
    destruct (table_command_goes_on ch c ui Ht) as [Htrue Hne].
    rewrite Htrue. split; [done | by intros ->].
  - destruct (the_commands !! ch) as [c|] eqn:Hg.
    + by apply global_command_stops.
    + split; [done|]. intros ->. by vm_compute in Hg.
Qed.

Lemma quit_is_the_only_exit_witness :
  editing (init three_rows) = None
  ∧ (snd (keyboard_handler the_commands the_table_commands (init three_rows) "q")
     = false ↔ "q" = "q")
  ∧ (snd (keyboard_handler the_commands the_table_commands (init three_rows) "j")
     = false ↔ "j" = "q").
Proof.
  exact (conj eq_refl
           (conj (quit_is_the_only_exit (init three_rows) "q" eq_refl)
                 (quit_is_the_only_exit (init three_rows) "j" eq_refl))).
Defined.

(** X16: outside the table mode the keys of the table scope do nothing:
    with no editor capturing the input, the handler leaves the state as it
    is, requests no refresh and returns [true]. *)
Theorem table_keys_need_the_table_mode (ui : Interface) (ch : string) :
  editing ui = None →
  mode ui ≠ TABLE →
  is_Some (the_table_commands !! ch) →
  keyboard_handler the_commands the_table_commands ui ch = (ui, true).
Proof.
  intros He Hm [c Hc]. unfold keyboard_handler. rewrite He.
  destruct (decide _); [done|].
  destruct (the_commands !! ch) as [c'|] eqn:Hg; [|done].
  apply the_commands_lookup in Hg. apply the_table_commands_lookup in Hc.
  destruct Hg as [[-> _] | [[-> _] | [[-> _] | [-> _]]]];
    destruct Hc as [[H _] | [[H _] | [[H _] | [[H _] | [[H _] | [[H _] | [H _]]]]]]];
    discriminate H.
Qed.

Lemma table_keys_need_the_table_mode_witness :
  editing (set_mode (init three_rows) HELP) = None
  ∧ mode (set_mode (init three_rows) HELP) ≠ TABLE
  ∧ is_Some (the_table_commands !! "G")
  ∧ keyboard_handler the_commands the_table_commands
      (set_mode (init three_rows) HELP) "G"
    = (set_mode (init three_rows) HELP, true).
Proof.
  assert (mode (set_mode (init three_rows) HELP) ≠ TABLE) as Hm by done.
  assert (is_Some (the_table_commands !! "G")) as Hs by (by eexists).
  exact (conj eq_refl (conj Hm (conj Hs
           (table_keys_need_the_table_mode (set_mode (init three_rows) HELP) "G"
              eq_refl Hm Hs)))).
Defined.

(** X17: with no editor capturing the input, in table mode the key [/]
    opens the filter prompt on the buffer as it is: the editor of the table
    view captures the input and is marked as editing, its value, prompt and
    callbacks are unchanged (the previous filter text is not cleared), the
    filter line is shown by the next rendering, one refresh is requested
    and the handler returns [true]. *)
Theorem slash_opens_the_filter_prompt (ui : Interface) :
  editing ui = None →
  mode ui = TABLE →
  let out := keyboard_handler the_commands the_table_commands ui "/" in
  snd out = true
  ∧ editing (fst out) = Some TableFilter
  ∧ Editor.state (Table._filter (table (fst out)))
    = Editor.set_editing (Editor.state (Table._filter (table ui))) true
  ∧ Editor.update (Table._filter (table (fst out)))
    = Editor.update (Table._filter (table ui))
  ∧ Editor.finalize (Table._filter (table (fst out)))
    = Editor.finalize (Table._filter (table ui))
  ∧ Table.filter_value (table (fst out)) = Table.filter_value (table ui)
  ∧ Table.filter_shown (table (fst out)) = true
  ∧ calls (fst out) = calls ui ++ [Refresh].
Proof.
  intros He Hm out. subst out. unfold keyboard_handler. rewrite He.
  destruct (decide _); [|done].
  change (the_table_commands !! "/")
    with (Some (mkCommand "/" "filter" edit_filter edit_filter_doc)).
  cbn [fn]. unfold edit_filter. cbn.
  repeat split; try done.
  unfold Table.filter_shown. cbn. apply orb_true_r.
Qed.

Lemma slash_opens_the_filter_prompt_witness :
  editing (init three_rows) = None
  ∧ mode (init three_rows) = TABLE
  ∧ editing (fst (keyboard_handler the_commands the_table_commands
                    (init three_rows) "/")) = Some TableFilter.
Proof.
  destruct (slash_opens_the_filter_prompt (init three_rows) eq_refl eq_refl)
    as (_ & Hed & _).
  exact (conj eq_refl (conj eq_refl Hed)).
Defined.

End RegisteredCommands.

Section NavigationMore.
Import Py Frame Ui Keys Examples.

(** X18: registering a command under a key that the dictionary does not
    hold succeeds: the key then maps to the command, with its short
    description, function and help text, and every other key maps to what
    it mapped to before.  Registering under a key that the dictionary holds
    raises KeyError. *)
Theorem add_command_registers (d : gmap string Command) (k short doc : string)
    (f : Interface → Interface * bool) :
  (d !! k = None →
   ∃ d', add_command d k short f doc = Ok d'
         ∧ d' !! k = Some (mkCommand k short f doc)
         ∧ ∀ k', k' ≠ k → d' !! k' = d !! k')
  ∧ (is_Some (d !! k) → add_command d k short f doc = Raise KeyError).
Proof.
  unfold add_command. split.
  - intros ->. eexists. split; [done|]. split.
    + apply lookup_insert_eq.
    + intros k' Hne. by apply lookup_insert_ne.
  - intros [c ->]. done.
Qed.

(** X19: with no editor capturing the input, the keys [s], [t] and [?]
    select the summary, the table and the help mode from every mode; the
    table view and the source are left as they are, one refresh is
    requested and the handler returns [true]. *)
Theorem mode_keys_switch_the_mode (ui : Interface) :
  editing ui = None →
  keyboard_handler the_commands the_table_commands ui "s"
  = (refresh (set_mode ui SUMMARY), true)
  ∧ keyboard_handler the_commands the_table_commands ui "t"
    = (refresh (set_mode ui TABLE), true)
  ∧ keyboard_handler the_commands the_table_commands ui "?"
    = (refresh (set_mode ui HELP), true).
Proof.
  intros He. unfold keyboard_handler. rewrite He.
  change (the_table_commands !! "s") with (@None Command).
  change (the_table_commands !! "t") with (@None Command).
  change (the_table_commands !! "?") with (@None Command).
  repeat split; by destruct (decide _).
Qed.

Lemma mode_keys_switch_the_mode_witness :
  editing (init three_rows) = None
  ∧ mode (fst (keyboard_handler the_commands the_table_commands
                 (init three_rows) "?")) = HELP.
Proof.
  destruct (mode_keys_switch_the_mode (init three_rows) eq_refl) as (_ & _ & Hh).
  split; [reflexivity|]. by rewrite Hh.
Defined.

(** X20: on a source with rows and with a recorded page size of at least
    one row, go-to-bottom stores the offset [max(0, rowCount - pageSize)]:
    the last row of the source is on the page that starts there, and the
    page is full when the source has that many rows.  Go-to-top stores
    offset 0.  Both request one refresh and return [true]. *)
Theorem go_to_bottom_shows_the_last_row (ui : Interface) :
  Table.df (table ui) = df ui →
  (1 ≤ nrows (df ui))%Z →
  (1 ≤ Table._last_page_size (table ui))%Z →
  let bottom := Table.startat (table (fst (go_to_bottom ui))) in
  bottom = Z.max 0 (nrows (df ui) - Table._last_page_size (table ui))
  ∧ (bottom ≤ nrows (df ui) - 1 < bottom + Table._last_page_size (table ui))%Z
  ∧ Table.startat (table (fst (go_to_top ui))) = 0%Z
  ∧ snd (go_to_bottom ui) = true ∧ snd (go_to_top ui) = true
  ∧ calls (fst (go_to_bottom ui)) = calls ui ++ [Refresh]
  ∧ calls (fst (go_to_top ui)) = calls ui ++ [Refresh].
Proof.
  intros Hdf Hn Hp bottom. subst bottom.
  unfold go_to_bottom, go_to_top. cbn [fst snd].
  change (table (refresh (set_table ui ?t))) with t.
  rewrite !set_startat_stored, Hdf.
  repeat split; try done; lia.
Qed.

Lemma go_to_bottom_shows_the_last_row_witness :
  let ui := set_table (init fifty_five_rows)
              (Table.set_last_page_size (Table.init fifty_five_rows) 20) in
  Table.df (table ui) = df ui
  ∧ (1 ≤ nrows (df ui))%Z
  ∧ (1 ≤ Table._last_page_size (table ui))%Z
  ∧ Table.startat (table (fst (go_to_bottom ui))) = 35%Z.
Proof.
  intros ui.
  assert (1 ≤ nrows (df ui))%Z as Hn by (vm_compute; discriminate).
  assert (1 ≤ Table._last_page_size (table ui))%Z as Hp by (vm_compute; discriminate).
  destruct (go_to_bottom_shows_the_last_row ui eq_refl Hn Hp) as (Hb & _).
  split; [reflexivity|]. split; [exact Hn|]. split; [exact Hp|].
  rewrite Hb. reflexivity.
Defined.

(** X21: on a source with columns and from a column offset within them,
    scroll-left stores [max(0, offset - 1)] and scroll-right stores
    [min(columnCount - 1, offset + 1)]: at the first column scroll-left
    changes nothing, at the last column scroll-right changes nothing, and
    scroll-right followed by scroll-left returns to the offset unless the
    view was at the last column.  The row offset is not touched. *)
Theorem horizontal_scroll_stops_at_the_edges (ui : Interface) :
  let t := table ui in
  let ncols := len (columns (Table.df t)) in
  let c := Table.column_startat t in
  (1 ≤ ncols)%Z →
  (0 ≤ c ≤ ncols - 1)%Z →
  Table.column_startat (table (fst (scroll_left ui))) = Z.max 0 (c - 1)
  ∧ Table.column_startat (table (fst (scroll_right ui))) = Z.min (ncols - 1) (c + 1)
  ∧ ((c + 1 ≤ ncols - 1)%Z →
     Table.column_startat (table (fst (scroll_left (fst (scroll_right ui))))) = c)
  ∧ Table.startat (table (fst (scroll_left ui))) = Table.startat t
  ∧ Table.startat (table (fst (scroll_right ui))) = Table.startat t.
Proof.
  intros t ncols c Hn Hc. subst t ncols c.
  assert (∀ u t, table (refresh (set_table u t)) = t) as Htable by done.
  assert (∀ t x, Table.df (Table.set_column_startat t x) = Table.df t) as Hdf by done.
  unfold scroll_left, scroll_right. cbn [fst].
  rewrite !Htable, !set_column_startat_stored, !Hdf, ?set_column_startat_stored.
  repeat split; try done; lia.
Qed.

End NavigationMore.

Section NavigationMoreExamples.
Import Py Frame Ui Keys Examples.

Lemma horizontal_scroll_stops_at_the_edges_witness :
  (1 ≤ len (columns (Table.df (table (init three_rows)))))%Z
  ∧ (0 ≤ Table.column_startat (table (init three_rows))
     ≤ len (columns (Table.df (table (init three_rows)))) - 1)%Z
  ∧ Table.column_startat (table (fst (scroll_left (init three_rows)))) = 0%Z
  ∧ Table.column_startat (table (fst (scroll_right (init three_rows)))) = 1%Z
  ∧ Table.column_startat
      (table (fst (scroll_right (fst (scroll_right (init three_rows)))))) = 1%Z.
Proof.
  assert (1 ≤ len (columns (Table.df (table (init three_rows)))))%Z as Hn
    by (vm_compute; discriminate).
  assert (0 ≤ Table.column_startat (table (init three_rows))
          ≤ len (columns (Table.df (table (init three_rows)))) - 1)%Z as Hc
    by (split; vm_compute; discriminate).
  destruct (horizontal_scroll_stops_at_the_edges (init three_rows) Hn Hc)
    as (Hl & Hr & _).
  split; [exact Hn|]. split; [exact Hc|].
  split; [rewrite Hl; reflexivity|]. split; [rewrite Hr; reflexivity|]. reflexivity.
Defined.

Lemma typing_a_line_commits_it_witness :
  editing filter_prompt_ui = Some TableFilter
  ∧ Editor.update (deref filter_prompt_ui TableFilter) = Editor.exit_on_return
  ∧ Editor.finalize (deref filter_prompt_ui TableFilter) = Editor.default_finalize
  ∧ Forall (fun ch => ordinary ch = true) ["B"; "o"; "b"; String CR ""]
  ∧ Editor.value
      (Editor.state
         (deref (fst (feed_session the_commands the_table_commands filter_prompt_ui
                        (["B"; "o"; "b"; String CR ""] ++ [Editor.NEWLINE])))
            TableFilter))
    = "Bob".
Proof.
  assert (Forall (fun ch => ordinary ch = true) ["B"; "o"; "b"; String CR ""])
    as Hall by (repeat constructor).
  destruct (typing_a_line_commits_it the_commands the_table_commands
              ["B"; "o"; "b"; String CR ""] filter_prompt_ui TableFilter
              eq_refl eq_refl eq_refl Hall) as (_ & _ & Hst).
  split; [reflexivity|]. split; [reflexivity|]. split; [reflexivity|].
  split; [exact Hall|]. rewrite Hst. reflexivity.
Defined.

Lemma editing_leaves_the_view_alone_witness :
  editing filter_prompt_ui = Some TableFilter
  ∧ mode (fst (keyboard_handler the_commands the_table_commands filter_prompt_ui "s"))
    = mode filter_prompt_ui
  ∧ Table.startat
      (table (fst (keyboard_handler the_commands the_table_commands
                     filter_prompt_ui "j")))
    = Table.startat (table filter_prompt_ui).
Proof.
  destruct (editing_leaves_the_view_alone the_commands the_table_commands
              filter_prompt_ui TableFilter "s" eq_refl) as (Hm & _).
  destruct (editing_leaves_the_view_alone the_commands the_table_commands
              filter_prompt_ui TableFilter "j" eq_refl) as (_ & _ & _ & Hs & _).
  exact (conj eq_refl (conj Hm Hs)).
Defined.

End NavigationMoreExamples.

(** ** The plain table of df.py *)

Section DfFacts.
Import Py Frame Df Examples.

Lemma fold_add_column (headers : list string) (t : RichTable) :
  fold_left add_column headers t
  = mkRichTable (title t) (table_columns t ++ headers) (table_rows t).
Proof.
  revert t. induction headers as [|h headers IH]; intros t; simpl.
  - rewrite app_nil_r. by destruct t.
  - rewrite IH. simpl. by rewrite <- app_assoc.
Qed.

Lemma fold_add_row (f : row → list string) (rs : list row) (t : RichTable) :
  fold_left (fun t r => add_row t (f r)) rs t
  = mkRichTable (title t) (table_columns t) (table_rows t ++ map f rs).
Proof.
  revert t. induction rs as [|r rs IH]; intros t; simpl.
  - rewrite app_nil_r. by destruct t.
  - rewrite IH. simpl. by rewrite <- app_assoc.
Qed.

(** X22: the plain table of a frame whose rows have one cell per column has
    a blank header followed by the column names, and one row per row of the
    frame, in their order: the index and the cells as strings, so every row
    has one cell per header. *)
Theorem df_to_rich_table_shape (df : DataFrame) (title : option string) :
  Forall (fun r : row => length r.2 = length (columns df)) (rows df) →
  let t := df_to_rich_table df title in
  Df.title t = title
  ∧ table_columns t = " " :: columns df
  ∧ table_rows t = map (fun r : row => str (CInt r.1) :: map str r.2) (rows df)
  ∧ Forall (fun cells => length cells = length (table_columns t)) (table_rows t).
Proof.
  intros Hwf t. subst t. unfold df_to_rich_table.
  rewrite fold_add_row, fold_add_column. cbn.
  split; [done|]. split; [done|]. split; [done|].
  apply Forall_map. eapply Forall_impl; [exact Hwf|].
  intros r Hr. simpl in *. by rewrite length_map, Hr.
Qed.

Lemma df_to_rich_table_shape_witness :
  Forall (fun r : row => length r.2 = length (columns three_rows)) (rows three_rows)
  ∧ table_columns (df_to_rich_table three_rows None) = [" "; "Name"; "Age"]
  ∧ table_rows (df_to_rich_table three_rows None)
    = [["0"; "Ann"; "31"]; ["1"; "Bob"; "25"]; ["2"; "Cy"; "47"]].
Proof.
  assert (Forall (fun r : row => length r.2 = length (columns three_rows))
            (rows three_rows)) as Hwf by (repeat constructor).
  destruct (df_to_rich_table_shape three_rows None Hwf) as (_ & Hc & Hr & _).
  split; [exact Hwf|]. split; [rewrite Hc | rewrite Hr]; reflexivity.
Defined.

End DfFacts.

(** ** The headers of data_gen.py *)

Section DataGenFacts.
Import DataGen.

Lemma header_dict_inj : Inj (=) (=) header_dict.
Proof. intros [] [] H; first [reflexivity | discriminate H]. Qed.

(** X23: the headers of a data generator follow its columns: one header per
    column, in the order of the columns, and two columns have the same
    header only if they are the same column, so the headers are distinct
    exactly when the columns are.  The default columns are the seven
    members, all distinct. *)
Theorem headers_follow_the_columns (cols : list Columns) :
  length (_get_headers cols) = length cols
  ∧ (∀ i, _get_headers cols !! i = header_dict <$> cols !! i)
  ∧ (NoDup (_get_headers cols) ↔ NoDup cols)
  ∧ (∀ c, c ∈ DEFAULT_COLUMNS)
  ∧ NoDup DEFAULT_COLUMNS.
Proof.
  unfold _get_headers. change (map header_dict cols) with (header_dict <$> cols).
  split; [apply length_fmap|]. split; [intros i; apply list_lookup_fmap|].
  split; [apply (@NoDup_fmap _ _ header_dict header_dict_inj)|]. split.
  - intros []; unfold DEFAULT_COLUMNS;
      repeat first [apply list_elem_of_here | apply list_elem_of_further].
  - apply (bool_decide_unpack _). by vm_compute.
Qed.

End DataGenFacts.
